(** * Smart maintenance agent: state store, risk scorer, plan composer,
      alert evaluator and coordinator

    A shallow embedding of [smart_maintenance_agent.py] and the properties
    of its orchestration pipeline.

    Conventions of the embedding:
    - a Python [float] is an IEEE 754 binary64 value, Rocq's primitive
      [float]; comparisons and additions are the primitive ones, so NaN,
      infinities and rounding behave as they do in CPython;
    - a Python [str] is a list of Unicode code points ([N]), so that
      [len], slicing and [strip] count code points as Python does;
    - a Python [dict] with a fixed set of keys is a record; a key that may
      be absent is an [option] field, and a text field that may hold
      [None] holds a [pyval]; the process-wide [STATE] dict is a [gmap]
      from device identifiers to records;
    - exceptions are the left summand of the result of a computation, and
      the store a failed computation leaves behind is kept: Python does
      not roll anything back;
    - [print] calls are console output and are not modelled. *)

From Stdlib Require Import ZArith String Ascii.
From Stdlib Require Import PrimFloat SpecFloat FloatOps FloatAxioms.
From stdpp Require Import gmap list pretty.

Set Warnings "-inexact-float".
Local Open Scope Z_scope.

(** ** Python strings *)

Abbreviation pystr := (list N).

(** An ASCII literal as a Python string. *)
Definition str (s : string) : pystr :=
  (fun a => N_of_ascii a) <$> list_ascii_of_string s.

(** [str.isspace] on one code point: the characters [str.strip()] removes. *)
Definition isspace (c : N) : bool :=
  ((9 <=? c) && (c <=? 13) || (28 <=? c) && (c <=? 32) || (c =? 133)
   || (c =? 160) || (c =? 5760) || (8192 <=? c) && (c <=? 8202)
   || (c =? 8232) || (c =? 8233) || (c =? 8239) || (c =? 8287)
   || (c =? 12288))%N.

Fixpoint lstrip (s : pystr) : pystr :=
  match s with
  | c :: s' => if isspace c then lstrip s' else s
  | [] => []
  end.

Definition rstrip (s : pystr) : pystr := reverse (lstrip (reverse s)).

(** [s.strip()] *)
Definition strip (s : pystr) : pystr := rstrip (lstrip s).

(** [sep.join(lines)] *)
Fixpoint join (sep : pystr) (lines : list pystr) : pystr :=
  match lines with
  | [] => []
  | [l] => l
  | l :: ls => l ++ sep ++ join sep ls
  end.

(** [l[-n:]] for a positive [n]: the last [n] elements. *)
Definition last_n {A} (n : nat) (l : list A) : list A :=
  drop (length l - n) l.

(** [str(i)] on a natural number. *)
Definition str_of_nat (n : nat) : pystr := str (pretty n).

(** A value that is [None] or a string, as a nullable text field of a
    search record is. *)
Inductive pyval :=
  | NoneVal
  | Str (s : pystr).

(** Truthiness: [None] and the empty string are falsy. *)
Definition truthy (v : pyval) : bool :=
  match v with
  | Str (_ :: _) => true
  | _ => false
  end.

(** [d.get(k)] and [d.get(k, "")] on a key that may be absent. *)
Definition get (x : option pyval) : pyval := default NoneVal x.
Definition get_default (x : option pyval) : pyval := default (Str []) x.

(** [v or d] for a string [d]. *)
Definition or_str (v : pyval) (d : pystr) : pystr :=
  match v with
  | Str (c :: s) => c :: s
  | _ => d
  end.

(** [e.get(k) or d] *)
Definition get_or (x : option pyval) (d : pystr) : pystr :=
  or_str (get x) d.

(** [f"{v}"] *)
Definition fmt (v : pyval) : pystr :=
  match v with
  | NoneVal => str "None"
  | Str s => s
  end.

(** ** Python floats *)

(** [a > b] and [a >= b]; both are [False] when an operand is NaN. *)
Definition gt (a b : float) : bool := PrimFloat.ltb b a.
Definition ge (a b : float) : bool := PrimFloat.leb b a.

(** [max(a, b)] and [min(a, b)]: the first argument is kept unless the
    second is strictly greater (smaller). *)
Definition py_max (a b : float) : float := if gt b a then b else a.
Definition py_min (a b : float) : float := if gt a b then b else a.

(** [num / den] rounded to an integer, ties to even ([den] positive). *)
Definition round_half_even (num den : Z) : Z :=
  let q := num / den in
  match (2 * (num mod den)) ?= den with
  | Lt => q
  | Gt => q + 1
  | Eq => if Z.even q then q else q + 1
  end.

(** The double nearest to [n / d] (ties to even), for positive [n], [d],
    with sign [neg]: the quotient is computed with more than 64 bits and
    a sticky bit, then rounded once. *)
Definition float_of_ratio (neg : bool) (n d : Z) : float :=
  let k := Z.max 0 (64 + Z.log2 d - Z.log2 n) in
  let q := (n * 2 ^ k) / d in
  let sticky := if (n * 2 ^ k) mod d =? 0 then 0 else 1 in
  match (2 * q + sticky)%Z with
  | Zpos m => SF2Prim (binary_round prec emax neg m (- k - 1))
  | _ => if neg then (-0)%float else 0%float
  end.

(** [round(x, 2)]: CPython rounds the exact value of [x] to two decimal
    places, ties to even, and returns the double nearest to that decimal;
    zeros, infinities and NaN are returned as they are. *)
Definition round2 (x : float) : float :=
  match Prim2SF x with
  | S754_finite s m e =>
      let n := if 0 <=? e then Zpos m * 2 ^ e * 100
               else round_half_even (Zpos m * 100) (2 ^ (- e)) in
      float_of_ratio s n 100
  | _ => x
  end.

(** ** Simple state (per device) *)

(** One element of a device's history: [{"T", "P", "CPU", "risk"}]. *)
Record HistoryEntry := mkEntry {
  hT : float;
  hP : float;
  hCPU : float;
  hrisk : float
}.

(** One device's record: [{"history": [...], "lastRisk": float}]. *)
Record DeviceRecord := mkRecord {
  history : list HistoryEntry;
  lastRisk : float
}.

(** The default record [{"history": [], "lastRisk": 0.0}]. *)
Definition zero_record : DeviceRecord := mkRecord [] 0%float.

(** [update_state]: create the record if the device is unknown, append
    the entry, keep the last 100 entries, set [lastRisk]. *)
Definition update_state (deviceId : pystr) (Temperature Pressure CPU_Usage risk : float)
    (STATE : gmap pystr DeviceRecord) : gmap pystr DeviceRecord :=
  let STATE :=
    match STATE !! deviceId with
    | None => <[deviceId := zero_record]> STATE
    | Some _ => STATE
    end in
  let STATE :=
    alter (fun r => mkRecord (history r ++ [mkEntry Temperature Pressure CPU_Usage risk])
                             (lastRisk r)) deviceId STATE in
  let STATE :=
    alter (fun r => mkRecord (last_n 100 (history r)) (lastRisk r)) deviceId STATE in
  alter (fun r => mkRecord (history r) risk) deviceId STATE.

(** What [STATE.get(deviceId, {...})] returns: the stored dict itself
    (an alias, which later writes to the store show through), or a fresh
    default dict that is not put into the store. *)
Inductive record_ref :=
  | Stored (deviceId : pystr)
  | Fresh (r : DeviceRecord).

Definition read_last_state (deviceId : pystr) (STATE : gmap pystr DeviceRecord)
    : record_ref :=
  match STATE !! deviceId with
  | Some _ => Stored deviceId
  | None => Fresh zero_record
  end.

(** The record a reference denotes in a given store. *)
Definition deref (STATE : gmap pystr DeviceRecord) (p : record_ref) : DeviceRecord :=
  match p with
  | Stored d => default zero_record (STATE !! d)
  | Fresh r => r
  end.

(** ** Utilities *)

Definition compute_simple_risk (T P CPU : float) : float :=
  let risk := 0%float in
  let risk := if gt T 85 then (risk + 0.4)%float else risk in
  let risk := if gt P 7.5 then (risk + 0.3)%float else risk in
  let risk := if gt CPU 90 then (risk + 0.2)%float else risk in
  round2 (py_min 1 (py_max 0 risk)).

(** ** Tool data *)

(** Python exceptions that can leave [run_coordinator]. *)
Inductive exn :=
  | KeyError (key : pystr)
  | RuntimeError (msg : pystr)
  | TypeError
  | SearchFailure.

(** The dict [predict_failure_risk] returns. *)
Record Prediction := mkPrediction {
  p_deviceId : pystr;
  p_risk : float;
  p_rationale : pystr;
  p_failure_modes : list pystr;
  p_history_length : nat
}.

(** One record of the search service's answer. A key may be absent (the
    field is [None]); the text fields are nullable strings, so a key that
    is present holds a string or Python's [None]. *)
Record SearchHit := mkHit {
  r_title : option pyval;
  r_content : option pyval;
  r_chunk : option pyval;
  r_source : option pyval;
  r_score : option float
}.

(** An evidence document, a dict with the keys ["title"], ["snippet"],
    ["source"] and ["score"]; [plan_repair_workflow] accepts dicts that
    lack some of them. *)
Record Doc := mkDoc {
  title : option pyval;
  snippet : option pyval;
  source : option pyval;
  score : option float
}.

Inductive alert_status := TRIGGERED | NO_ALERT.

(** The dict [send_alert] returns. *)
Record Alert := mkAlert {
  alert : alert_status;
  a_deviceId : pystr;
  a_risk : float
}.

(** The incoming event, typed as the inbound interface gives it; [None]
    is a key that the dict does not have. *)
Record Event := mkEvent {
  ev_deviceId : option pystr;
  ev_Temperature : option float;
  ev_Pressure : option float;
  ev_CPU_Usage : option float;
  ev_topK : option Z;
  ev_alert_threshold : option float
}.

(** ** The world a run acts on *)

(** The device store, and the calls of [retrieve_docs] made so far, each
    with its query and [topK] (a log kept to speak about invocations). *)
Record world := mkWorld {
  STATE : gmap pystr DeviceRecord;
  retrievals : list (pystr * Z)
}.

Definition M (A : Type) : Type := world -> (exn + A) * world.

Definition ret {A} (a : A) : M A := fun w => (inr a, w).

Definition raise {A} (e : exn) : M A := fun w => (inl e, w).

Definition bind {A B} (m : M A) (k : A -> M B) : M B :=
  fun w =>
    match m w with
    | (inl e, w') => (inl e, w')
    | (inr a, w') => k a w'
    end.

Notation "x <- m ;; k" := (bind m (fun x => k))
  (at level 100, m at next level, right associativity).

(** [d[key]] on a key that may be absent. *)
Definition item {A} (key : string) (o : option A) : M A :=
  match o with
  | Some v => ret v
  | None => raise (KeyError (str key))
  end.

(** The same outside the monad. *)
Definition item_pure {A} (key : string) (o : option A) : exn + A :=
  match o with
  | Some v => inr v
  | None => inl (KeyError (str key))
  end.

(** A loop that appends one computed line per element and stops at the
    first exception. *)
Fixpoint for_each {A B} (f : A -> exn + B) (l : list A) : exn + list B :=
  match l with
  | [] => inr []
  | a :: l' =>
      match f a with
      | inl e => inl e
      | inr b =>
          match for_each f l' with
          | inl e => inl e
          | inr bs => inr (b :: bs)
          end
      end
  end.

Definition nl : pystr := [10%N].

Definition failure_modes : list pystr :=
  [str "overheating"; str "bearing wear"; str "misalignment"].

Definition placeholder : pystr :=
  str "- No external evidence referenced in this run.".

Definition steps : list pystr :=
  [ str "Apply Lockout/Tagout (LOTO) per site procedure; verify zero energy state.";
    str "Visually inspect housing, inlet/outlet, mounts for looseness or damage.";
    str "Measure bearing temperature and vibration; compare with baseline limits.";
    str "Check shaft alignment and coupling; re-align if out of tolerance.";
    str "Lubricate/replace bearings per OEM spec if play/noise detected.";
    str "Clear cooling passages and filters; verify ventilation/airflow.";
    (* U+2013, the en dash of "10-15 min" *)
    str "Run controlled test (10" ++ [8211%N]
      ++ str "15 min); record temp/pressure/vibration trends.";
    str "Update CMMS, attach readings, and trend risk for the next 7 days." ].

Definition parts : list pystr :=
  [ str "Bearing kit (per BOM)";
    str "Coupling shims";
    str "Approved grease/lubricant";
    str "Cleaning kit / filters" ].

Definition safety : list pystr :=
  [ str "LOTO enforced; arc-flash PPE as required";
    str "Eye/hand protection at all times";
    str "Follow confined-space rules if applicable" ].

Definition rollback : pystr :=
  str "Restore original alignment and settings; reassemble with prior shims; "
  ++ str "remove LOTO only after verification and sign-off.".

(** [eta = 3.5 if risk >= 0.7 else 2.0] *)
Definition eta (risk : float) : float :=
  if ge risk 0.7 then 3.5%float else 2%float.

(** [f"{i+1}. {s}" for i, s in enumerate(steps)] *)
Definition numbered (l : list pystr) : list pystr :=
  imap (fun i s => str_of_nat (i + 1) ++ str ". " ++ s) l.

(** [f"- {p}" for p in l] *)
Definition bulleted (l : list pystr) : list pystr :=
  (fun p => str "- " ++ p) <$> l.

(** The bracketed source: [(' [' + src + ']') if src else ''] *)
Definition bracketed (src : pystr) : pystr :=
  match src with
  | [] => []
  | _ => str " [" ++ src ++ str "]"
  end.

(** One evidence line of the plan, for the document at position [i]
    (counted from 1). *)
Definition ev_line (i : nat) (e : Doc) : pystr :=
  let ttl := get_or (title e) (str "Doc " ++ str_of_nat i) in
  let snip := strip (take 300 (get_or (snippet e) [])) in
  let src := get_or (source e) [] in
  str "- " ++ ttl ++ str ": " ++ snip ++ bracketed src.

(** [ev_lines] of [plan_repair_workflow]: over [enumerate(evidence[:3], start=1)]. *)
Definition ev_lines (evidence : list Doc) : list pystr :=
  imap (fun i e => ev_line (S i) e) (take 3 evidence).

(** [ev_lines or ["- No external evidence referenced in this run."]] *)
Definition plan_evidence_section (evidence : list Doc) : list pystr :=
  match ev_lines evidence with
  | [] => [placeholder]
  | ls => ls
  end.

(** One evidence line of the final report. *)
Definition report_ev_line (e : Doc) : exn + pystr :=
  let src := match get_or (source e) [] with
             | [] => []
             | s => str " [" ++ s ++ str "]"
             end in
  match item_pure "title" (title e) with
  | inl x => inl x
  | inr ttl =>
      match item_pure "snippet" (snippet e) with
      | inl x => inl x
      | inr snip => inr (str "- " ++ fmt ttl ++ str ": " ++ fmt snip ++ src)
      end
  end.

(** The evidence lines [run_coordinator] appends to the report. *)
Definition report_evidence_section (evidence : list Doc) : exn + list pystr :=
  match evidence with
  | [] => inr [placeholder]
  | _ => for_each report_ev_line evidence
  end.

(** 4) ALERT *)
Definition send_alert (deviceId : pystr) (risk : float) : Alert :=
  mkAlert (if ge risk 0.7 then TRIGGERED else NO_ALERT) deviceId risk.

Definition alert_str (a : alert_status) : pystr :=
  match a with
  | TRIGGERED => str "TRIGGERED"
  | NO_ALERT => str "NO_ALERT"
  end.

(** What [retrieve_docs] makes of one record of the answer. The title
    and the source are kept as they are, [None] included. The snippet is
    [(r.get("content","") or r.get("chunk",""))[:500]]: slicing raises a
    [TypeError] when the content is falsy and the chunk is [None]. *)
Definition doc_of_hit (r : SearchHit) : exn + Doc :=
  let text := if truthy (get_default (r_content r))
              then get_default (r_content r)
              else get_default (r_chunk r) in
  match text with
  | NoneVal => inl TypeError
  | Str s0 =>
      inr (mkDoc (Some (get_default (r_title r)))
                 (Some (Str (take 500 s0)))
                 (Some (get_default (r_source r)))
                 (Some (default 0%float (r_score r))))
  end.

(** ** Notions the properties are stated with *)

(** The invariant of one device record: at most 100 entries, and
    [lastRisk] is the risk of the newest entry, or [0.0] without one. *)
Definition record_ok (r : DeviceRecord) : Prop :=
  (length (history r) <= 100)%nat /\
  lastRisk r = match last (history r) with
               | Some e => hrisk e
               | None => 0%float
               end.

(** The invariant of the store: every record in it is well formed. *)
Definition store_ok (st : gmap pystr DeviceRecord) : Prop :=
  forall d r, st !! d = Some r -> record_ok r.

(** [update_state] called once per entry of [es], oldest first, for one
    device. *)
Definition record_all (deviceId : pystr) (es : list HistoryEntry)
    (st : gmap pystr DeviceRecord) : gmap pystr DeviceRecord :=
  foldl (fun st e => update_state deviceId (hT e) (hP e) (hCPU e) (hrisk e) st) st es.

(** The score is one of eight values, chosen by the three strict
    comparisons. *)
Definition risk_table (hot high busy : bool) : float :=
  match hot, high, busy with
  | false, false, false => 0%float
  | false, false, true => 0.2%float
  | false, true, false => 0.3%float
  | false, true, true => 0.5%float
  | true, false, false => 0.4%float
  | true, false, true => 0.6%float
  | true, true, false => 0.7%float
  | true, true, true => 0.9%float
  end.

(** The line of the report for a document that has a title and a
    snippet: both as they print, followed by the bracketed source if it
    has one. *)
Definition full_line (e : Doc) : pystr :=
  str "- " ++ fmt (get_default (title e)) ++ str ": "
  ++ fmt (get_default (snippet e)) ++ bracketed (get_or (source e) []).

(** A record without text: its content is absent, [None] or empty, and
    its chunk is [None]. *)
Definition no_text (r : SearchHit) : bool :=
  negb (truthy (get_default (r_content r)))
  && match r_chunk r with
     | Some NoneVal => true
     | _ => false
     end.

(** The text of a record: its content, or its chunk when the content is
    absent, [None] or empty. *)
Definition text_of_hit (r : SearchHit) : pystr :=
  or_str (get_default (r_content r)) (or_str (get_default (r_chunk r)) []).

(** The document of a record that has text: title and source as they
    are, or the empty string for an absent key; the first 500 characters
    of the text; the score, or 0.0 for an absent key. *)
Definition doc_made_of (r : SearchHit) : Doc :=
  mkDoc (Some (get_default (r_title r)))
        (Some (Str (take 500 (text_of_hit r))))
        (Some (get_default (r_source r)))
        (Some (default 0%float (r_score r))).











(** ** Sample data for the examples *)

Module Sample.

(** The hundredths nearest to a finite float [m * 2 ^ e], ties to even. *)
Definition hundredths (m : positive) (e : Z) : Z :=
  if 0 <=? e then Zpos m * 2 ^ e * 100
  else round_half_even (Zpos m * 100) (2 ^ (- e)).

Definition sign (s : bool) : pystr := if s then str "-" else [].

(** [n / 100] in decimal with two places, and with one place when the
    second is 0. *)
Definition two_places (n : N) : pystr :=
  str (pretty (n / 100)%N) ++ str "." ++ str (pretty ((n mod 100) / 10)%N)
  ++ str (pretty (n mod 10)%N).

Definition short_places (n : N) : pystr :=
  str (pretty (n / 100)%N) ++ str "." ++ str (pretty ((n mod 100) / 10)%N)
  ++ (if (n mod 10 =? 0)%N then [] else str (pretty (n mod 10)%N)).

(** Python's [f"{x:.2f}"]. *)
Definition float_2f (x : float) : pystr :=
  match Prim2SF x with
  | S754_nan => str "nan"
  | S754_infinity s => sign s ++ str "inf"
  | S754_zero s => sign s ++ str "0.00"
  | S754_finite s m e => sign s ++ two_places (Z.to_N (hundredths m e))
  end.

(** Python's [f"{x}"] for the floats that are the nearest to a decimal
    with at most two places, below 1e15: the shortest text that reads
    back as [x]. Other finite floats get a marker, as their shortest
    text is not computed here. *)
Definition float_str (x : float) : pystr :=
  match Prim2SF x with
  | S754_nan => str "nan"
  | S754_infinity s => sign s ++ str "inf"
  | S754_zero s => sign s ++ str "0.0"
  | S754_finite s m e =>
      let n := hundredths m e in
      if PrimFloat.eqb (float_of_ratio s n 100) x && (n <? 10 ^ 17)
      then sign s ++ short_places (Z.to_N n)
      else str "<float>"
  end.

(** The index of a search service: four records, the second with its
    text under "chunk", the third without source and the last with
    [None] as its source. *)
Definition index : list SearchHit :=
  [ mkHit (Some (Str (str "Pump manual"))) (Some (Str (str "Bearing wear limits")))
          None (Some (Str (str "manual.pdf"))) (Some 1.5%float);
    mkHit (Some (Str (str "Seal guide"))) None (Some (Str (str "Replace the seal")))
          (Some (Str (str "seals.pdf"))) (Some 1.25%float);
    mkHit (Some (Str (str "Alignment"))) (Some (Str (str "Check the coupling")))
          None None (Some 1%float);
    mkHit (Some (Str (str "Cooling"))) (Some (Str (str "Clear the filters")))
          None (Some NoneVal) (Some 0.5%float) ].

(** A search service that answers every query with the first [topK]
    records of the index. *)
Definition search (query : pystr) (topK : Z) : option (list SearchHit) :=
  Some (take (Z.to_nat topK) index).

(** A record without title, one with a text of 501 characters, one
    whose title is [None], and one whose content and chunk are [None]. *)
Definition untitled_hit : SearchHit :=
  mkHit None (Some (Str (str "Bearing wear limits"))) None
        (Some (Str (str "manual.pdf"))) (Some 1.5%float).

Definition long_hit : SearchHit :=
  mkHit (Some (Str (str "A"))) (Some (Str (replicate 501 97%N))) None None None.

Definition null_title_hit : SearchHit :=
  mkHit (Some NoneVal) (Some (Str (str "Bearing wear limits"))) None None None.

Definition null_text_hit : SearchHit :=
  mkHit (Some (Str (str "Pump manual"))) (Some NoneVal) (Some NoneVal) None None.

(** The documents [retrieve_docs] makes of the first three of these. *)
Definition untitled_doc : Doc :=
  mkDoc (Some (Str [])) (Some (Str (str "Bearing wear limits")))
        (Some (Str (str "manual.pdf"))) (Some 1.5%float).

Definition long_doc : Doc :=
  mkDoc (Some (Str (str "A"))) (Some (Str (replicate 500 97%N)))
        (Some (Str [])) (Some 0%float).

Definition null_title_doc : Doc :=
  mkDoc (Some NoneVal) (Some (Str (str "Bearing wear limits")))
        (Some (Str [])) (Some 0%float).

(** A search service that answers with a record of the index and then a
    record without text. *)
Definition search_null_text (query : pystr) (topK : Z) : option (list SearchHit) :=
  Some (take 1 index ++ [null_text_hit]).

Definition w0 : world := mkWorld ∅ [].

(** The event of the program's [__main__]. *)
Definition pump17 : Event :=
  mkEvent (Some (str "pump-17")) (Some 92%float) (Some 8.2%float)
          (Some 88%float) (Some 3) (Some 0.7%float).

(** The same event asking for four documents. *)
Definition pump17_top4 : Event :=
  mkEvent (Some (str "pump-17")) (Some 92%float) (Some 8.2%float)
          (Some 88%float) (Some 4) (Some 0.7%float).

(** The same reading with the alert threshold raised to 0.95. *)
Definition pump17_high_threshold : Event :=
  mkEvent (Some (str "pump-17")) (Some 92%float) (Some 8.2%float)
          (Some 88%float) (Some 3) (Some 0.95%float).

(** A hot device with the alert threshold lowered to 0.3. *)
Definition pump17_low_threshold : Event :=
  mkEvent (Some (str "pump-17")) (Some 92%float) (Some 2%float)
          (Some 10%float) (Some 3) (Some 0.3%float).

(** An event without its ["Pressure"] key. *)
Definition no_pressure : Event :=
  mkEvent (Some (str "pump-17")) (Some 92%float) None
          (Some 88%float) None None.

(** A store that knows one device, "pump-2". *)
Definition one_device : gmap pystr DeviceRecord :=
  update_state (str "pump-2") 50 2 10 0 ∅.

(** A search service that is down. *)
Definition no_search (query : pystr) (topK : Z) : option (list SearchHit) :=
  None.

(** The event of the program's [__main__] without its optional keys. *)
Definition pump17_defaults : Event :=
  mkEvent (Some (str "pump-17")) (Some 92%float) (Some 8.2%float)
          (Some 88%float) None None.

Fixpoint float_of_nat (n : nat) : float :=
  match n with
  | O => 0%float
  | S k => (float_of_nat k + 1)%float
  end.

(** 101 readings, the [i]-th with temperature [i]. *)
Definition readings : list HistoryEntry :=
  (fun i : nat => mkEntry (float_of_nat i) 0%float 0%float 0%float) <$> seq 0 101.

End Sample.

(** ** Tools and coordinator *)

(** The run of [run_coordinator] up to the alert: everything the final
    report is composed from. *)
Record Run := mkRun {
  run_deviceId : pystr;
  run_thr : float;
  run_pred : Prediction;
  run_evidence : list Doc;
  run_plan_text : pystr;
  run_alert : Alert
}.

Section Agent.

(** Python's formatting of a float, [f"{x}"] and [f"{x:.2f}"]. *)
Variable float_str : float -> pystr.
Variable float_2f : float -> pystr.

(** Whether the three [AZURE_SEARCH_*] settings are all present. *)
Variable search_configured : bool.

(** The search service: [client.search(query, top=topK,
    query_type="simple")]; [None] when the call raises. *)
Variable search : pystr -> Z -> option (list SearchHit).

(** 1) PREDICT. [prev] is read after [update_state] has run, so for a
    known device it shows the record as updated. *)
Definition predict_failure_risk (deviceId : pystr)
    (Temperature Pressure CPU_Usage : float) : M Prediction :=
  fun w =>
    let risk := compute_simple_risk Temperature Pressure CPU_Usage in
    let prev := read_last_state deviceId (STATE w) in
    let STATE' := update_state deviceId Temperature Pressure CPU_Usage risk (STATE w) in
    let rationale :=
      (* U+2192 is the arrow, U+00B0 the degree sign *)
      str "Heuristic thresholds " ++ [8594%N] ++ str " Prev risk="
      ++ float_2f (lastRisk (deref STATE' prev)) ++ str ", "
      ++ str "Now=" ++ float_2f risk ++ str " (T=" ++ float_str Temperature
      ++ [176%N] ++ str "C, P=" ++ float_str Pressure ++ str ", CPU="
      ++ float_str CPU_Usage ++ str "%)." in
    let out :=
      mkPrediction deviceId risk rationale failure_modes
        (length (history (default zero_record (STATE' !! deviceId)))) in
    (inr out, mkWorld STATE' (retrievals w)).

Definition build_search_client : exn + unit :=
  if search_configured then inr ()
  else inl (RuntimeError (str "Missing AZURE_SEARCH_* in .env (service, key, index).")).

(** 2) RETRIEVE *)
Definition retrieve_docs (query : pystr) (topK : Z) : M (list Doc) :=
  fun w =>
    let w := mkWorld (STATE w) (retrievals w ++ [(query, topK)]) in
    match build_search_client with
    | inl e => (inl e, w)
    | inr _ =>
        match search query topK with
        | None => (inl SearchFailure, w)
        | Some results => (for_each doc_of_hit results, w)
        end
    end.

(** 3) PLAN: the [lines] of [plan_repair_workflow]. *)
Definition plan_lines (deviceId : pystr) (risk : float)
    (failure_modes : list pystr) (evidence : list Doc) : list pystr :=
  [ str "# Repair Plan for " ++ deviceId;
    str "Risk: " ++ float_str risk ++ str " | Failure modes: "
      ++ join (str ", ") failure_modes;
    str "## Evidence (summary)" ]
  ++ plan_evidence_section evidence
  ++ [ str "## Steps" ] ++ numbered steps
  ++ [ str "## Parts/Materials" ] ++ bulleted parts
  ++ [ str "## Safety" ] ++ bulleted safety
  ++ [ str "## ETA (hours)" ++ nl ++ float_str (eta risk);
       str "## Rollback" ++ nl ++ rollback ].

Definition plan_repair_workflow (deviceId : pystr) (risk : float)
    (failure_modes : list pystr) (evidence : list Doc) : pystr :=
  join nl (plan_lines deviceId risk failure_modes evidence).

(** The query [run_coordinator] builds for the search. *)
Definition search_query (pred : Prediction) (Pressure Temperature : float) : pystr :=
  join (str " ") (p_failure_modes pred) ++ str " pump maintenance pressure:"
  ++ float_str Pressure ++ str " temperature:" ++ float_str Temperature.

(** [run_coordinator], steps 1 to 4. *)
Definition coordinator_stages (event : Event) : M Run :=
  deviceId <- item "deviceId" (ev_deviceId event) ;;
  let thr := default 0.7%float (ev_alert_threshold event) in
  let topK := default 3 (ev_topK event) in
  Temperature <- item "Temperature" (ev_Temperature event) ;;
  Pressure <- item "Pressure" (ev_Pressure event) ;;
  CPU_Usage <- item "CPU_Usage" (ev_CPU_Usage event) ;;
  pred <- predict_failure_risk deviceId Temperature Pressure CPU_Usage ;;
  evidence <- (if ge (p_risk pred) thr
               then retrieve_docs (search_query pred Pressure Temperature) topK
               else ret []) ;;
  let plan_text :=
    plan_repair_workflow deviceId (p_risk pred) (p_failure_modes pred) evidence in
  let alert := send_alert deviceId (p_risk pred) in
  ret (mkRun deviceId thr pred evidence plan_text alert).

(** [run_coordinator], step 5: the [lines] of the final report. *)
Definition report_lines (r : Run) : exn + list pystr :=
  match report_evidence_section (run_evidence r) with
  | inl e => inl e
  | inr ev =>
      inr ([ (* U+2014 is the em dash *)
             str "# Smart Maintenance Report " ++ [8212%N] ++ str " " ++ run_deviceId r;
             str "## Risk & Rationale";
             str "- Risk score: **" ++ float_str (p_risk (run_pred r)) ++ str "**";
             str "- Rationale: " ++ p_rationale (run_pred r);
             str "## Failure Modes" ]
           ++ bulleted (p_failure_modes (run_pred r))
           ++ [ str "## Evidence (summary)" ]
           ++ ev
           ++ [ str "## Repair Plan";
                run_plan_text r;
                str "## Alert Status";
                str "- " ++ alert_str (alert (run_alert r)) ++ str " (threshold: "
                  ++ float_str (run_thr r) ++ str ")" ])
  end.

Definition run_coordinator (event : Event) : M pystr :=
  r <- coordinator_stages event ;;
  match report_lines r with
  | inl e => raise e
  | inr lines => ret (join nl lines)
  end.

(** The text of the query a run sends to the search, for the readings
    it was given. *)
Definition query_text (Pressure Temperature : float) : pystr :=
  str "overheating bearing wear misalignment pump maintenance pressure:"
  ++ float_str Pressure ++ str " temperature:" ++ float_str Temperature.

(** What the retrieval of a run comes to: the documents, or the exception
    of a search that is not configured, that fails, or that answers with
    a record without text. *)
Definition retrieval_outcome (Pressure Temperature : float) (topK : Z)
    : exn + list Doc :=
  if search_configured
  then match search (query_text Pressure Temperature) topK with
       | Some results => for_each doc_of_hit results
       | None => inl SearchFailure
       end
  else inl (RuntimeError (str "Missing AZURE_SEARCH_* in .env (service, key, index).")).

(** The world after a run on an event with its four required keys: the
    reading recorded, and the retrieval logged if there was one. *)
Definition world_after (d : pystr) (T P C : float) (topK : option Z)
    (thr : option float) (w : world) : world :=
  mkWorld (update_state d T P C (compute_simple_risk T P C) (STATE w))
          (retrievals w
           ++ (if ge (compute_simple_risk T P C) (default 0.7%float thr)
               then [(query_text P T, default 3 topK)] else [])).

(** ** Properties of the device store *)

Lemma update_state_insert (d : pystr) (T P C risk : float) (st : gmap pystr DeviceRecord) :
  update_state d T P C risk st =
  <[d := mkRecord (last_n 100 (history (default zero_record (st !! d))
                               ++ [mkEntry T P C risk])) risk]> st.
Proof.
  unfold update_state. destruct (st !! d) as [r|] eqn:E; simpl.
  - apply map_eq. intros k. destruct (decide (k = d)) as [->|Hne].
    + rewrite !lookup_alter_eq, E, lookup_insert_eq. reflexivity.
    + rewrite !lookup_alter_ne, lookup_insert_ne by congruence. reflexivity.
  - rewrite !alter_insert_eq. reflexivity.
Qed.

Lemma length_last_n {A} n (l : list A) :
  length (last_n n l) = Nat.min (length l) n.
Proof. unfold last_n. rewrite length_drop. lia. Qed.

Lemma last_n_short {A} n (l : list A) :
  (length l <= n)%nat -> last_n n l = l.
Proof.
  intros H. unfold last_n. replace (length l - n)%nat with 0%nat by lia.
  reflexivity.
Qed.

Lemma last_n_snoc {A} n (l : list A) x :
  last_n (S n) (last_n (S n) l ++ [x]) = last_n (S n) (l ++ [x]).
Proof.
  destruct (decide (length l <= S n)%nat) as [Hle|Hgt].
  - rewrite (last_n_short (S n) l) by assumption. reflexivity.
  - unfold last_n at 1 3.
    rewrite !length_app, length_last_n. simpl.
    unfold last_n.
    rewrite !drop_app_le by (rewrite ?length_drop; lia).
    rewrite drop_drop. f_equal. f_equal. lia.
Qed.

Lemma last_last_n_snoc {A} n (l : list A) x :
  last (last_n (S n) (l ++ [x])) = Some x.
Proof.
  unfold last_n. rewrite length_app. simpl.
  rewrite drop_app_le by lia. apply last_snoc.
Qed.

Lemma update_state_record_ok (d : pystr) (T P C risk : float) (st : gmap pystr DeviceRecord) r :
  update_state d T P C risk st !! d = Some r -> record_ok r.
Proof.
  rewrite update_state_insert, lookup_insert_eq. intros [= <-].
  split; simpl.
  - rewrite length_last_n. lia.
  - rewrite last_last_n_snoc. reflexivity.
Qed.

Lemma record_all_history (d : pystr) (es : list HistoryEntry) :
  history (default zero_record (record_all d es ∅ !! d)) = last_n 100 es.
Proof.
  induction es as [|e es IH] using rev_ind.
  - reflexivity.
  - unfold record_all in *. rewrite foldl_snoc, update_state_insert.
    rewrite lookup_insert_eq. simpl. rewrite IH.
    destruct e as [T P C risk]. simpl. apply last_n_snoc.
Qed.

(** C4. Every record of the store has at most 100 history entries and
    a [lastRisk] that is the risk of its newest entry (0.0 without
    entries). The empty store satisfies this, [update_state] preserves
    it, and [read_last_state] leaves the store as it is and returns a
    record that satisfies it. *)
Theorem store_invariant :
  store_ok ∅ /\
  (forall st d T P C risk,
      store_ok st -> store_ok (update_state d T P C risk st)) /\
  (forall st d,
      store_ok st -> record_ok (deref st (read_last_state d st))).
Proof.
  split; [|split].
  - intros d r H. rewrite lookup_empty in H. discriminate.
  - intros st d T P C risk HS k r Hk.
    destruct (decide (k = d)) as [->|Hne].
    + eapply update_state_record_ok, Hk.
    + rewrite update_state_insert, lookup_insert_ne in Hk by congruence.
      eapply HS, Hk.
  - intros st d HS. unfold read_last_state.
    destruct (st !! d) as [r|] eqn:E; simpl.
    + rewrite E. simpl. eapply HS, E.
    + split; simpl; [lia | reflexivity].
Qed.

(** C5. After 101 calls of [update_state] for one device on the empty
    store, its history has exactly 100 entries: the entries recorded
    second to last, in the order they were recorded. The entry recorded
    first has been dropped: position [i] of the history holds the entry
    recorded at position [i + 1]. *)
Theorem history_keeps_last_100 (d : pystr) (es : list HistoryEntry) :
  length es = 101%nat ->
  exists r,
    record_all d es ∅ !! d = Some r /\
    length (history r) = 100%nat /\
    history r = drop 1 es /\
    (forall i, history r !! i = es !! S i).
Proof.
  intros Hlen.
  pose proof (record_all_history d es) as Hh.
  destruct (record_all d es ∅ !! d) as [r|] eqn:E.
  - simpl in Hh. exists r.
    assert (Hd : history r = drop 1 es).
    { rewrite Hh. unfold last_n. rewrite Hlen. reflexivity. }
    split; [reflexivity|]. split; [|split].
    + rewrite Hd, length_drop. lia.
    + exact Hd.
    + intros i. rewrite Hd, lookup_drop. reflexivity.
  - exfalso. simpl in Hh.
    assert (Hl : length (last_n 100 es) = 0%nat) by (rewrite <- Hh; reflexivity).
    rewrite length_last_n in Hl. lia.
Qed.

(** ** Properties of the scorer *)

Lemma compute_simple_risk_table (T P CPU : float) :
  compute_simple_risk T P CPU = risk_table (gt T 85) (gt P 7.5) (gt CPU 90).
Proof.
  unfold compute_simple_risk.
  destruct (gt T 85), (gt P 7.5), (gt CPU 90); vm_compute; reflexivity.
Qed.

Lemma predict_failure_risk_result (deviceId : pystr) (T P C : float) (w : world) :
  exists rationale n,
    predict_failure_risk deviceId T P C w =
    (inr (mkPrediction deviceId (compute_simple_risk T P C) rationale
                       failure_modes n),
     mkWorld (update_state deviceId T P C (compute_simple_risk T P C) (STATE w))
             (retrievals w)).
Proof. unfold predict_failure_risk. eexists _, _. reflexivity. Qed.

(** C6. The score of any three readings lies between 0.0 and 1.0, and
    it is a function of the readings alone: whatever the store holds
    when [predict_failure_risk] runs, the risk it reports is
    [compute_simple_risk] of the readings. *)
Theorem score_bounded_and_stateless (T P CPU : float) :
  PrimFloat.leb 0 (compute_simple_risk T P CPU) = true /\
  PrimFloat.leb (compute_simple_risk T P CPU) 1 = true /\
  forall deviceId w1 w2, exists p1 p2 w1' w2',
    predict_failure_risk deviceId T P CPU w1 = (inr p1, w1') /\
    predict_failure_risk deviceId T P CPU w2 = (inr p2, w2') /\
    p_risk p1 = compute_simple_risk T P CPU /\
    p_risk p2 = p_risk p1.
Proof.
  split; [|split].
  - rewrite compute_simple_risk_table.
    destruct (gt T 85), (gt P 7.5), (gt CPU 90); vm_compute; reflexivity.
  - rewrite compute_simple_risk_table.
    destruct (gt T 85), (gt P 7.5), (gt CPU 90); vm_compute; reflexivity.
  - intros deviceId w1 w2.
    destruct (predict_failure_risk_result deviceId T P CPU w1) as (r1 & n1 & E1).
    destruct (predict_failure_risk_result deviceId T P CPU w2) as (r2 & n2 & E2).
    eexists _, _, _, _. rewrite E1, E2. repeat split; reflexivity.
Qed.

(** ** Comparisons of floats *)

Lemma SFcompare_antisym x y :
  SFcompare y x = option_map CompOpp (SFcompare x y).
Proof.
  destruct x as [sx|sx| |sx mx ex], y as [sy|sy| |sy my ey]; simpl;
    try reflexivity; try (destruct sx; reflexivity);
    try (destruct sy; reflexivity); try (destruct sx, sy; reflexivity).
  f_equal. destruct sx, sy; simpl; try reflexivity.
  - rewrite (Z.compare_antisym ex ey).
    destruct (ex ?= ey)%Z; simpl; try reflexivity.
    change (Pos.compare_cont Eq my mx) with (Pos.compare my mx).
    change (Pos.compare_cont Eq mx my) with (Pos.compare mx my).
    rewrite (Pos.compare_antisym mx my). reflexivity.
  - rewrite (Z.compare_antisym ex ey).
    destruct (ex ?= ey)%Z; simpl; try reflexivity.
    change (Pos.compare_cont Eq my mx) with (Pos.compare my mx).
    change (Pos.compare_cont Eq mx my) with (Pos.compare mx my).
    rewrite (Pos.compare_antisym mx my).
    destruct (mx ?= my)%positive; reflexivity.
Qed.

(** [a < b] excludes [a >= b]. *)
Lemma lt_not_ge a b : PrimFloat.ltb a b = true -> ge a b = false.
Proof.
  unfold ge. rewrite ltb_spec, leb_spec. unfold SFltb, SFleb.
  rewrite (SFcompare_antisym (Prim2SF a) (Prim2SF b)).
  destruct (SFcompare (Prim2SF a) (Prim2SF b)) as [[]|]; simpl; congruence.
Qed.

(** ** Properties of the plan composer *)

Lemma join_app sep (a b : list pystr) :
  a <> [] -> b <> [] -> join sep (a ++ b) = join sep a ++ sep ++ join sep b.
Proof.
  intros Ha Hb. induction a as [|x a IH]; [congruence|].
  destruct a as [|y a].
  - simpl. destruct b; [congruence|reflexivity].
  - change (join sep ((x :: y :: a) ++ b)) with (x ++ sep ++ join sep ((y :: a) ++ b)).
    rewrite IH by congruence.
    change (join sep (x :: y :: a)) with (x ++ sep ++ join sep (y :: a)).
    rewrite <- !app_assoc. reflexivity.
Qed.

















(** ** Properties of the coordinator *)

(** A run on an event that has its four required keys: the reading is
    scored and recorded, then evidence is retrieved or not, then plan
    and alert are made from the risk. *)
Lemma coordinator_stages_full (d : pystr) (T P C : float)
    (topK : option Z) (thr : option float) (w : world) :
  exists pred,
    p_risk pred = compute_simple_risk T P C /\
    p_failure_modes pred = failure_modes /\
    coordinator_stages (mkEvent (Some d) (Some T) (Some P) (Some C) topK thr) w =
    match (if ge (compute_simple_risk T P C) (default 0.7%float thr)
           then retrieve_docs (search_query pred P T) (default 3 topK)
           else ret [])
            (mkWorld (update_state d T P C (compute_simple_risk T P C) (STATE w))
                     (retrievals w)) with
    | (inl x, w') => (inl x, w')
    | (inr evidence, w') =>
        (inr (mkRun d (default 0.7%float thr) pred evidence
                (plan_repair_workflow d (compute_simple_risk T P C)
                   failure_modes evidence)
                (send_alert d (compute_simple_risk T P C))), w')
    end.
Proof.
  eexists. split; [|split]; cycle 2.
  - cbv beta iota zeta delta
      [coordinator_stages bind item ret predict_failure_risk
       ev_deviceId ev_Temperature ev_Pressure ev_CPU_Usage ev_topK
       ev_alert_threshold p_risk p_failure_modes].
    reflexivity.
  - reflexivity.
  - reflexivity.
Qed.

Lemma retrieve_docs_logs query topK w :
  retrievals (snd (retrieve_docs query topK w)) = retrievals w ++ [(query, topK)].
Proof.
  unfold retrieve_docs, build_search_client.
  destruct search_configured; [destruct (search query topK)|]; reflexivity.
Qed.

(** C3. In a run that reaches the scoring, [retrieve_docs] is called
    (once) if and only if the computed risk is >= the run's alert
    threshold; when the risk is below the threshold the run succeeds,
    the plan is composed from an empty evidence list, and its evidence
    section is the placeholder line. *)
Theorem retrieval_iff_risk_reaches_threshold (d : pystr) (T P C : float)
    (topK : option Z) (thr : option float) (w : world) :
  let event := mkEvent (Some d) (Some T) (Some P) (Some C) topK thr in
  let risk := compute_simple_risk T P C in
  let threshold := default 0.7%float thr in
  let out := coordinator_stages event w in
  (exists query,
      retrievals (snd out) =
      retrievals w ++ (if ge risk threshold then [(query, default 3 topK)] else [])) /\
  (retrievals (snd out) <> retrievals w <-> ge risk threshold = true) /\
  (PrimFloat.ltb risk threshold = true ->
   exists r before after,
     fst out = inr r /\
     run_evidence r = [] /\
     run_plan_text r = plan_repair_workflow d risk failure_modes [] /\
     plan_lines d risk failure_modes (run_evidence r) =
       before ++ [str "## Evidence (summary)"; placeholder; str "## Steps"] ++ after /\
     length before = 2%nat).
Proof.
  intros event risk threshold out.
  destruct (coordinator_stages_full d T P C topK thr w) as (pred & Hr & Hm & E).
  fold event risk threshold in E. fold out in E.
  assert (Hlog : retrievals (snd out) =
                 retrievals w ++ (if ge risk threshold
                                  then [(search_query pred P T, default 3 topK)]
                                  else [])).
  { rewrite E. destruct (ge risk threshold).
    - match goal with
      | |- context [retrieve_docs ?q ?k ?w0] =>
          pose proof (retrieve_docs_logs q k w0) as L;
          destruct (retrieve_docs q k w0) as [[x|ev] w']
      end; exact L.
    - simpl. rewrite app_nil_r. reflexivity. }
  split; [eexists; exact Hlog|]. split.
  - rewrite Hlog. destruct (ge risk threshold).
    + split; [reflexivity|]. intros _ H.
      apply (f_equal length) in H. rewrite length_app in H. simpl in H. lia.
    + rewrite app_nil_r. split; [congruence|discriminate].
  - intros Hlt. apply lt_not_ge in Hlt. rewrite Hlt in E. simpl in E.
    eexists _, [_; _], _. rewrite E. simpl.
    split; [reflexivity|]. split; [reflexivity|]. split; [reflexivity|].
    split; reflexivity.
Qed.

(** The alert of a run is decided against the constant 0.7, whatever
    the run's threshold. *)
Lemma run_alert_fixed_threshold (d : pystr) (T P C : float)
    (topK : option Z) (thr : option float) (w : world) r w' :
  coordinator_stages (mkEvent (Some d) (Some T) (Some P) (Some C) topK thr) w
    = (inr r, w') ->
  run_thr r = default 0.7%float thr /\
  alert (run_alert r) =
    if ge (compute_simple_risk T P C) 0.7 then TRIGGERED else NO_ALERT.
Proof.
  destruct (coordinator_stages_full d T P C topK thr w) as (pred & Hr & Hm & E).
  rewrite E.
  match goal with
  | |- context [match ?m with _ => _ end = _] => destruct m as [[x|ev] w'']
  end; intros [= <- <-]. split; reflexivity.
Qed.

Lemma float_3_5_neq_2 : 3.5%float <> 2%float.
Proof.
  intros H. apply (f_equal (fun x => PrimFloat.eqb x 2)) in H.
  vm_compute in H. discriminate H.
Qed.

(** C8. The ETA of the plan is 3.5 exactly when risk >= 0.7 and 2.0
    exactly when not; the plan's line before last is the ETA section,
    the text Python prints for that number; and in a coordinator run
    the ETA section is that of the score of the readings, whatever the
    event's [alert_threshold] is. *)
Theorem eta_by_fixed_threshold :
  (forall risk,
      (eta risk = 3.5%float <-> ge risk 0.7 = true) /\
      (eta risk = 2%float <-> ge risk 0.7 = false)) /\
  (forall d risk modes evidence, exists before,
      plan_lines d risk modes evidence =
        before ++ [ str "## ETA (hours)" ++ nl ++ float_str (eta risk);
                    str "## Rollback" ++ nl ++ rollback ]) /\
  (forall d T P C topK thr w r w',
      coordinator_stages (mkEvent (Some d) (Some T) (Some P) (Some C) topK thr) w
        = (inr r, w') ->
      exists before,
        run_plan_text r =
          join nl (before
                   ++ [ str "## ETA (hours)" ++ nl
                          ++ float_str (eta (compute_simple_risk T P C));
                        str "## Rollback" ++ nl ++ rollback ])).
Proof.
  assert (Hplan : forall d risk modes evidence, exists before,
    plan_lines d risk modes evidence =
      before ++ [ str "## ETA (hours)" ++ nl ++ float_str (eta risk);
                  str "## Rollback" ++ nl ++ rollback ]).
  { intros d risk modes evidence. unfold plan_lines. eexists.
    rewrite !app_assoc. reflexivity. }
  split; [|split].
  - intros risk. unfold eta. pose proof float_3_5_neq_2.
    destruct (ge risk 0.7); split; split; congruence.
  - exact Hplan.
  - intros d T P C topK thr w r w'.
    destruct (coordinator_stages_full d T P C topK thr w) as (pred & Hr & Hm & E).
    rewrite E.
    match goal with
    | |- context [match ?m with _ => _ end = _] => destruct m as [[x|ev] w'']
    end; intros [= <- <-]. simpl.
    destruct (Hplan d (compute_simple_risk T P C) failure_modes ev) as [before Hb].
    exists before. unfold plan_repair_workflow. rewrite Hb. reflexivity.
Qed.

(** C10. When the event lacks one of "deviceId", "Temperature",
    "Pressure" and "CPU_Usage", the run raises a [KeyError] for one of
    these keys and leaves the world as it found it: nothing was scored
    or recorded, no device record was created or changed, nothing was
    retrieved. *)
Theorem missing_field_leaves_store (event : Event) (w : world) :
  ev_deviceId event = None \/ ev_Temperature event = None \/
  ev_Pressure event = None \/ ev_CPU_Usage event = None ->
  exists key,
    In key ["deviceId"; "Temperature"; "Pressure"; "CPU_Usage"]%string /\
    coordinator_stages event w = (inl (KeyError (str key)), w) /\
    run_coordinator event w = (inl (KeyError (str key)), w).
Proof.
  destruct event as [[d|] [T|] [P|] [C|] topK thr]; simpl;
    intros [H|[H|[H|H]]]; try discriminate H;
    eexists; (split; [|split; reflexivity]); simpl; tauto.
Qed.

(** ** Further properties of the device store *)

Lemma deref_read_last_state (d : pystr) (st : gmap pystr DeviceRecord) :
  deref st (read_last_state d st) = default zero_record (st !! d).
Proof.
  unfold read_last_state. destruct (st !! d) as [r|] eqn:E; simpl.
  - rewrite E. reflexivity.
  - reflexivity.
Qed.

Lemma last_n_idem {A} n (l : list A) : last_n n (last_n n l) = last_n n l.
Proof. apply last_n_short. rewrite length_last_n. lia. Qed.

Lemma last_n_app {A} n (l k : list A) :
  last_n (S n) (last_n (S n) l ++ k) = last_n (S n) (l ++ k).
Proof.
  induction k as [|x k IH] using rev_ind.
  - rewrite !app_nil_r. apply last_n_idem.
  - rewrite !app_assoc.
    rewrite <- (last_n_snoc n (last_n (S n) l ++ k)), IH.
    apply last_n_snoc.
Qed.

Lemma record_all_other (d d' : pystr) (es : list HistoryEntry)
    (st : gmap pystr DeviceRecord) :
  d' <> d -> record_all d es st !! d' = st !! d'.
Proof.
  intros Hne. induction es as [|e es IH] using rev_ind; [reflexivity|].
  unfold record_all in *. rewrite foldl_snoc, update_state_insert.
  rewrite lookup_insert_ne by congruence. exact IH.
Qed.

Lemma record_all_last_n (d : pystr) (es : list HistoryEntry)
    (st : gmap pystr DeviceRecord) :
  last_n 100 (history (default zero_record (record_all d es st !! d)))
  = last_n 100 (history (default zero_record (st !! d)) ++ es).
Proof.
  induction es as [|e es IH] using rev_ind.
  - rewrite app_nil_r. reflexivity.
  - unfold record_all in *. rewrite foldl_snoc, update_state_insert.
    rewrite lookup_insert_eq. simpl. rewrite last_n_idem.
    rewrite <- last_n_snoc, IH, last_n_snoc, app_assoc.
    destruct e; reflexivity.
Qed.

(** X1. [update_state] writes to the record of its device only: the
    record of every other device is what it was. *)
Theorem update_state_other_devices (d d' : pystr) (T P C risk : float)
    (st : gmap pystr DeviceRecord) :
  d' <> d -> update_state d T P C risk st !! d' = st !! d'.
Proof.
  intros Hne. rewrite update_state_insert.
  apply lookup_insert_ne. congruence.
Qed.

(** X2. What [read_last_state] returns after [update_state]: the stored
    record of the device, whose history is the old history with the new
    entry appended, cut to its last 100 entries, whose newest entry is
    the one just recorded, and whose [lastRisk] is the recorded risk. The
    history grows by one entry until it has 100. *)
Theorem read_after_update (d : pystr) (T P C risk : float)
    (st : gmap pystr DeviceRecord) :
  let st' := update_state d T P C risk st in
  let old := history (deref st (read_last_state d st)) in
  read_last_state d st' = Stored d /\
  deref st' (read_last_state d st')
    = mkRecord (last_n 100 (old ++ [mkEntry T P C risk])) risk /\
  last (history (deref st' (read_last_state d st'))) = Some (mkEntry T P C risk) /\
  length (history (deref st' (read_last_state d st')))
    = Nat.min (S (length old)) 100.
Proof.
  intros st' old. subst old. rewrite (deref_read_last_state d st).
  assert (E : st' !! d =
              Some (mkRecord (last_n 100 (history (default zero_record (st !! d))
                                          ++ [mkEntry T P C risk])) risk)).
  { unfold st'. rewrite update_state_insert. apply lookup_insert_eq. }
  assert (R : read_last_state d st' = Stored d).
  { unfold read_last_state. rewrite E. reflexivity. }
  rewrite R. simpl. rewrite E. simpl.
  split; [reflexivity|]. split; [reflexivity|]. split.
  - apply last_last_n_snoc.
  - rewrite length_last_n, length_app. simpl. lia.
Qed.

(** X3. Recording a sequence of entries for one device, from any store:
    the device's history afterwards is the old history followed by the
    entries, cut to its last 100, its [lastRisk] is the risk of the last
    entry, and no other device is touched. *)
Theorem record_all_keeps_newest (d : pystr) (es : list HistoryEntry)
    (st : gmap pystr DeviceRecord) :
  es <> [] ->
  exists r,
    record_all d es st !! d = Some r /\
    history r = last_n 100 (history (default zero_record (st !! d)) ++ es) /\
    Some (lastRisk r) = hrisk <$> last es /\
    (forall d', d' <> d -> record_all d es st !! d' = st !! d').
Proof.
  intros Hne.
  destruct es as [|e es _] using rev_ind; [congruence|].
  pose proof (record_all_last_n d (es ++ [e]) st) as Hl.
  unfold record_all in *. rewrite foldl_snoc, update_state_insert in *.
  rewrite lookup_insert_eq in *. simpl in Hl. rewrite last_n_idem in Hl.
  eexists. split; [reflexivity|]. simpl. split; [|split].
  - exact Hl.
  - rewrite last_snoc. reflexivity.
  - intros d' Hd. rewrite lookup_insert_ne by congruence.
    apply (record_all_other d d' es st Hd).
Qed.

(** ** Further properties of the scorer *)

Lemma SFcompare_lt_le_trans x y z :
  SFcompare x y = Some Lt ->
  (SFcompare y z = Some Lt \/ SFcompare y z = Some Eq) ->
  SFcompare x z = Some Lt.
Proof.
  destruct x as [sx|sx| |sx mx ex], y as [sy|sy| |sy my ey],
           z as [sz|sz| |sz mz ez];
    simpl; intros H1 [H2|H2]; try discriminate;
    try destruct sx; try destruct sy; try destruct sz;
    simpl in *; try discriminate; try reflexivity;
    change (Pos.compare_cont Eq) with Pos.compare in *;
    f_equal;
    injection H1 as H1; injection H2 as H2;
    destruct (Z.compare_spec ex ey), (Z.compare_spec ey ez), (Z.compare_spec ex ez);
    try discriminate; try lia; try reflexivity; subst;
    destruct (Pos.compare_spec mx my), (Pos.compare_spec my mz),
             (Pos.compare_spec mx mz);
    simpl in *; try discriminate; try lia; try reflexivity.
Qed.

(** [a > c] and [b >= a] give [b > c]. *)
Lemma gt_ge_trans a b c : gt a c = true -> ge b a = true -> gt b c = true.
Proof.
  unfold gt, ge. rewrite !ltb_spec, leb_spec. unfold SFltb, SFleb.
  intros H1 H2.
  rewrite (SFcompare_lt_le_trans (Prim2SF c) (Prim2SF a) (Prim2SF b));
    [reflexivity| |].
  - destruct (SFcompare (Prim2SF c) (Prim2SF a)) as [[]|]; congruence.
  - destruct (SFcompare (Prim2SF a) (Prim2SF b)) as [[]|];
      try discriminate; auto.
Qed.

Lemma SFcompare_refl x : x <> S754_nan -> SFcompare x x = Some Eq.
Proof.
  destruct x as [s|s| |s m e]; simpl; intros H; try congruence.
  - destruct s; reflexivity.
  - rewrite Z.compare_refl.
    change (Pos.compare_cont Eq m m) with (Pos.compare m m).
    rewrite Pos.compare_refl. destruct s; reflexivity.
Qed.

(** NaN is greater than nothing. *)
Lemma nan_not_gt x y : PrimFloat.is_nan x = true -> gt x y = false.
Proof.
  unfold gt, is_nan. rewrite FloatAxioms.eqb_spec, FloatAxioms.ltb_spec.
  unfold SFeqb, SFltb.
  destruct (Prim2SF x) eqn:E;
    try (rewrite SFcompare_refl by discriminate; discriminate).
  intros _. destruct (Prim2SF y); reflexivity.
Qed.

(** X4. The alert and the ETA depend on temperature and pressure only:
    the score reaches 0.7 exactly when the temperature is above 85 and
    the pressure above 7.5, so the CPU load never changes the alert or
    the ETA; and the score never exceeds 0.9, so the clamp at 1.0 is
    never active. *)
Theorem alert_by_temperature_and_pressure (d : pystr) (T P CPU : float) :
  ge (compute_simple_risk T P CPU) 0.7 = gt T 85 && gt P 7.5 /\
  alert (send_alert d (compute_simple_risk T P CPU))
    = (if gt T 85 && gt P 7.5 then TRIGGERED else NO_ALERT) /\
  eta (compute_simple_risk T P CPU)
    = (if gt T 85 && gt P 7.5 then 3.5%float else 2%float) /\
  ge 0.9 (compute_simple_risk T P CPU) = true.
Proof.
  unfold send_alert, eta. simpl. rewrite compute_simple_risk_table.
  destruct (gt T 85), (gt P 7.5), (gt CPU 90); vm_compute; repeat split.
Qed.

(** X5. The score is monotone: raising any of the three readings never
    lowers the score. *)
Theorem score_monotone (T P CPU T' P' CPU' : float) :
  ge T' T = true -> ge P' P = true -> ge CPU' CPU = true ->
  ge (compute_simple_risk T' P' CPU') (compute_simple_risk T P CPU) = true.
Proof.
  intros HT HP HC. rewrite !compute_simple_risk_table.
  pose proof (fun H => gt_ge_trans T T' 85 H HT) as MT.
  pose proof (fun H => gt_ge_trans P P' 7.5 H HP) as MP.
  pose proof (fun H => gt_ge_trans CPU CPU' 90 H HC) as MC.
  destruct (gt T 85); [rewrite (MT eq_refl)|clear MT];
    (destruct (gt P 7.5); [rewrite (MP eq_refl)|clear MP]);
    (destruct (gt CPU 90); [rewrite (MC eq_refl)|clear MC]);
    repeat match goal with
           | |- context [gt ?x ?c] => destruct (gt x c)
           end; vm_compute; reflexivity.
Qed.

(** X6. A reading that is NaN counts as below its threshold: it adds
    nothing to the score, whatever the other readings are. *)
Theorem nan_reading_adds_nothing (x T P CPU : float) :
  PrimFloat.is_nan x = true ->
  compute_simple_risk x P CPU = compute_simple_risk 0 P CPU /\
  compute_simple_risk T x CPU = compute_simple_risk T 0 CPU /\
  compute_simple_risk T P x = compute_simple_risk T P 0.
Proof.
  intros Hx. rewrite !compute_simple_risk_table.
  rewrite !(nan_not_gt x) by exact Hx.
  repeat split; vm_compute (gt 0 _); reflexivity.
Qed.

(** X7. The ETA is the long one exactly when the alert is triggered:
    both compare the risk with the same constant. *)
Theorem long_eta_iff_alert (d : pystr) (risk : float) :
  eta risk = 3.5%float <-> alert (send_alert d risk) = TRIGGERED.
Proof.
  unfold eta, send_alert. simpl. pose proof float_3_5_neq_2.
  destruct (ge risk 0.7); split; congruence.
Qed.

(** ** Further properties of the prediction *)

(** X8. The "Prev risk" of the rationale is not the previous risk: for a
    device the store knows, [prev] is the stored record itself, read
    after [update_state] has written to it, so the rationale shows the
    new risk twice; for an unknown device it shows 0.0. *)
Theorem rationale_previous_risk (d : pystr) (T P C : float) (w : world) :
  exists p,
    predict_failure_risk d T P C w
      = (inr p, mkWorld (update_state d T P C (compute_simple_risk T P C) (STATE w))
                        (retrievals w)) /\
    p_rationale p =
      str "Heuristic thresholds " ++ [8594%N] ++ str " Prev risk="
      ++ float_2f (match STATE w !! d with
                   | Some _ => compute_simple_risk T P C
                   | None => 0%float
                   end)
      ++ str ", Now=" ++ float_2f (compute_simple_risk T P C)
      ++ str " (T=" ++ float_str T ++ [176%N] ++ str "C, P=" ++ float_str P
      ++ str ", CPU=" ++ float_str C ++ str "%).".
Proof.
  eexists. split; [reflexivity|]. simpl.
  assert (E : lastRisk (deref (update_state d T P C (compute_simple_risk T P C)
                                 (STATE w))
                          (read_last_state d (STATE w)))
              = match STATE w !! d with
                | Some _ => compute_simple_risk T P C
                | None => 0%float
                end).
  { unfold read_last_state. destruct (STATE w !! d); simpl; [|reflexivity].
    rewrite update_state_insert, lookup_insert_eq. reflexivity. }
  rewrite E. reflexivity.
Qed.

(** X9. The history length a prediction reports is the length of the
    device's old history plus one, capped at 100; so it is at least 1
    and at most 100. *)
Theorem prediction_history_length (d : pystr) (T P C : float) (w : world) :
  exists p w',
    predict_failure_risk d T P C w = (inr p, w') /\
    p_history_length p
      = Nat.min (S (length (history (default zero_record (STATE w !! d))))) 100 /\
    (1 <= p_history_length p <= 100)%nat /\
    p_deviceId p = d /\
    p_failure_modes p
      = [str "overheating"; str "bearing wear"; str "misalignment"].
Proof.
  eexists _, _. split; [reflexivity|]. simpl.
  rewrite update_state_insert, lookup_insert_eq. simpl.
  rewrite length_last_n, length_app. simpl.
  split; [lia|]. split; [lia|]. split; reflexivity.
Qed.

(** ** Further properties of the retrieval *)

Lemma doc_of_hit_cases (r : SearchHit) :
  doc_of_hit r = if no_text r then inl TypeError else inr (doc_made_of r).
Proof.
  unfold doc_of_hit, no_text, doc_made_of, text_of_hit.
  destruct (r_content r) as [[|[|c s0]]|], (r_chunk r) as [[|[|c' s1]]|];
    reflexivity.
Qed.

Lemma for_each_doc_of_hit (results : list SearchHit) :
  for_each doc_of_hit results =
  if existsb no_text results then inl TypeError
  else inr (doc_made_of <$> results).
Proof.
  induction results as [|r l IH]; [reflexivity|].
  cbn [for_each existsb]. rewrite doc_of_hit_cases, IH.
  destruct (no_text r); [reflexivity|].
  destruct (existsb no_text l); reflexivity.
Qed.

Lemma retrieve_docs_cases (query : pystr) (topK : Z) (w : world) :
  retrieve_docs query topK w =
  ((if search_configured
    then match search query topK with
         | Some results => for_each doc_of_hit results
         | None => inl SearchFailure
         end
    else inl (RuntimeError (str "Missing AZURE_SEARCH_* in .env (service, key, index)."))),
   mkWorld (STATE w) (retrievals w ++ [(query, topK)])).
Proof.
  unfold retrieve_docs, build_search_client.
  destruct search_configured; [destruct (search query topK)|]; reflexivity.
Qed.

(** X10. When the search is configured and answers, [retrieve_docs]
    either raises a [TypeError], exactly when some record of the answer
    has no text (content absent, [None] or empty, and chunk [None]), and
    then returns no document at all; or it returns one document per
    record, in the order of the answer. Every document has the four
    keys: the title and the source as the record has them, [None]
    included, or the empty string for an absent key; the score, or 0.0;
    and as snippet the first 500 characters of the content, or of the
    chunk when the content is absent, [None] or empty. The store is not
    touched either way. *)
Theorem retrieve_docs_documents (query : pystr) (topK : Z) (w : world)
    (results : list SearchHit) :
  search_configured = true ->
  search query topK = Some results ->
  exists outcome,
    retrieve_docs query topK w
      = (outcome, mkWorld (STATE w) (retrievals w ++ [(query, topK)])) /\
    (outcome = inl TypeError <-> existsb no_text results = true) /\
    ((exists docs, outcome = inr docs) <-> existsb no_text results = false) /\
    (forall docs, outcome = inr docs ->
       length docs = length results /\
       forall i r, results !! i = Some r ->
         exists snip,
           docs !! i = Some (mkDoc (Some (get_default (r_title r)))
                                   (Some (Str snip))
                                   (Some (get_default (r_source r)))
                                   (Some (default 0%float (r_score r)))) /\
           (length snip <= 500)%nat /\
           snip = take 500 (text_of_hit r)).
Proof.
  intros Hc Hs. rewrite retrieve_docs_cases, Hc, Hs, for_each_doc_of_hit.
  eexists. split; [reflexivity|].
  destruct (existsb no_text results).
  - split; [tauto|]. split; [|discriminate].
    split; [intros [docs H]; discriminate H | discriminate].
  - split; [split; discriminate|]. split; [split; [reflexivity|eexists; reflexivity]|].
    intros docs [= <-]. split; [apply length_fmap|].
    intros i r Hi. eexists. split; [|split].
    + rewrite list_lookup_fmap, Hi. reflexivity.
    + rewrite length_take. lia.
    + reflexivity.
Qed.

(** ** Further properties of the plan composer *)

Lemma length_lstrip (s0 : pystr) : (length (lstrip s0) <= length s0)%nat.
Proof.
  induction s0 as [|c s0 IH]; simpl; [lia|].
  destruct (isspace c); simpl; lia.
Qed.

Lemma length_strip (s0 : pystr) : (length (strip s0) <= length s0)%nat.
Proof.
  unfold strip, rstrip. rewrite length_reverse.
  pose proof (length_lstrip (reverse (lstrip s0))) as H1.
  rewrite length_reverse in H1.
  pose proof (length_lstrip s0). lia.
Qed.

Lemma lstrip_fixed (s0 : pystr) :
  lstrip s0 = s0 <-> match s0 with c :: _ => isspace c = false | [] => True end.
Proof.
  destruct s0 as [|c s0]; simpl; [tauto|].
  destruct (isspace c) eqn:E; split; try congruence; try reflexivity.
  intros H. pose proof (length_lstrip s0) as L. rewrite H in L. simpl in L. lia.
Qed.

Lemma lstrip_idem (s0 : pystr) : lstrip (lstrip s0) = lstrip s0.
Proof.
  induction s0 as [|c s0 IH]; [reflexivity|]. simpl.
  destruct (isspace c) eqn:E; [exact IH|]. simpl. rewrite E. reflexivity.
Qed.

Lemma lstrip_suffix (s0 : pystr) : exists ws, s0 = ws ++ lstrip s0.
Proof.
  induction s0 as [|c s0 [ws IH]]; [exists []; reflexivity|]. simpl.
  destruct (isspace c).
  - exists (c :: ws). simpl. congruence.
  - exists []. reflexivity.
Qed.

Lemma rstrip_idem (s0 : pystr) : rstrip (rstrip s0) = rstrip s0.
Proof.
  unfold rstrip. rewrite reverse_involutive, lstrip_idem. reflexivity.
Qed.

Lemma lstrip_rstrip (s0 : pystr) :
  lstrip s0 = s0 -> lstrip (rstrip s0) = rstrip s0.
Proof.
  intros H. apply lstrip_fixed. apply lstrip_fixed in H.
  destruct (lstrip_suffix (reverse s0)) as [ws Hws].
  apply (f_equal reverse) in Hws.
  rewrite reverse_involutive, reverse_app in Hws. fold (rstrip s0) in Hws.
  destruct (rstrip s0) as [|c t]; [exact I|].
  rewrite Hws in H. exact H.
Qed.

Lemma strip_idem (s0 : pystr) : strip (strip s0) = strip s0.
Proof.
  unfold strip. rewrite (lstrip_rstrip (lstrip s0)) by apply lstrip_idem.
  apply rstrip_idem.
Qed.

(** X11. The evidence section of a plan has one line per document for
    up to three documents and never more than three lines. It is the one
    placeholder line exactly when there is no evidence: no document
    renders as the placeholder. Line [i] is the line of the [i]-th
    document, numbered from 1 for the "Doc" fallback. *)
Theorem plan_evidence_section_size (evidence : list Doc) :
  length (plan_evidence_section evidence)
    = Nat.max 1 (Nat.min 3 (length evidence)) /\
  (evidence = [] <-> plan_evidence_section evidence = [placeholder]) /\
  (forall i e, (i < 3)%nat -> evidence !! i = Some e ->
               plan_evidence_section evidence !! i = Some (ev_line (S i) e)).
Proof.
  unfold plan_evidence_section, ev_lines.
  split; [|split].
  - destruct evidence as [|e1 [|e2 [|e3 l]]]; reflexivity.
  - split; [intros ->; reflexivity|].
    destruct evidence as [|e1 l]; [reflexivity|]. intros H. exfalso.
    assert (Hl : exists rest,
               match imap (fun i e => ev_line (S i) e) (take 3 (e1 :: l)) with
               | [] => [placeholder]
               | n :: ls => n :: ls
               end = ev_line 1 e1 :: rest) by (eexists; reflexivity).
    destruct Hl as [rest Hl]. rewrite Hl in H.
    assert (H1 : ev_line 1 e1 = placeholder) by congruence. clear H Hl.
    assert (Hin : 58%N ∈ placeholder).
    { rewrite <- H1. unfold ev_line.
      rewrite !elem_of_app. right. right. left. vm_compute. left. }
    vm_compute in Hin. repeat (apply elem_of_cons in Hin as [Hin|Hin];
                               [discriminate Hin|]).
    apply elem_of_nil in Hin. exact Hin.
  - intros i e Hi He.
    assert (Hl : imap (fun i e => ev_line (S i) e) (take 3 evidence) !! i
                 = Some (ev_line (S i) e)).
    { rewrite list_lookup_imap, lookup_take_lt, He by exact Hi. reflexivity. }
    destruct (imap (fun i e => ev_line (S i) e) (take 3 evidence));
      [rewrite lookup_nil in Hl; discriminate Hl | exact Hl].
Qed.

(** X12. An evidence line of the plan is the title, or "Doc i" when the
    title is absent, [None] or empty, then a snippet of at most 300
    characters with no white space at either end, then the bracketed
    source if there is one. A document without any key, or with [None]
    under every key, gives "- Doc i: ". *)
Theorem plan_evidence_line_shape (i : nat) (e : Doc) :
  exists ttl snip,
    ev_line i e = str "- " ++ ttl ++ str ": " ++ snip
                  ++ bracketed (get_or (source e) []) /\
    ttl <> [] /\
    (ttl = get_or (title e) [] \/
     get_or (title e) [] = [] /\ ttl = str "Doc " ++ str_of_nat i) /\
    (length snip <= 300)%nat /\
    strip snip = snip /\
    snip = strip (take 300 (get_or (snippet e) [])) /\
    ev_line i (mkDoc None None None None) = str "- Doc " ++ str_of_nat i ++ str ": " /\
    ev_line i (mkDoc (Some NoneVal) (Some NoneVal) (Some NoneVal) None)
      = str "- Doc " ++ str_of_nat i ++ str ": ".
Proof.
  exists (get_or (title e) (str "Doc " ++ str_of_nat i)).
  exists (strip (take 300 (get_or (snippet e) []))).
  split; [|split; [|split; [|split; [|split; [|split; [|split]]]]]].
  - reflexivity.
  - unfold get_or, or_str. destruct (get (title e)) as [|[|c t]]; discriminate.
  - unfold get_or, or_str. destruct (get (title e)) as [|[|c t]]; auto.
  - pose proof (length_strip (take 300 (get_or (snippet e) []))) as H.
    rewrite length_take in H. lia.
  - apply strip_idem.
  - reflexivity.
  - reflexivity.
  - reflexivity.
Qed.

(** ** Further properties of the coordinator *)

Lemma search_query_text (pred : Prediction) (P T : float) :
  p_failure_modes pred = failure_modes ->
  search_query pred P T = query_text P T.
Proof. intros H. unfold search_query, query_text. rewrite H. reflexivity. Qed.

Lemma report_ev_line_keys (e : Doc) (t s0 : pyval) :
  title e = Some t -> snippet e = Some s0 -> report_ev_line e = inr (full_line e).
Proof.
  intros Ht Hs. unfold report_ev_line, full_line, item_pure, bracketed.
  rewrite Ht, Hs. destruct (get_or (source e) []); reflexivity.
Qed.

Lemma for_each_retrieved (results : list SearchHit) :
  for_each report_ev_line (doc_made_of <$> results)
  = inr (full_line <$> (doc_made_of <$> results)).
Proof.
  induction results as [|r l IH]; [reflexivity|].
  rewrite !fmap_cons.
  change (for_each report_ev_line (doc_made_of r :: (doc_made_of <$> l)))
    with (match report_ev_line (doc_made_of r) with
          | inl x => inl x
          | inr b => match for_each report_ev_line (doc_made_of <$> l) with
                     | inl x => inl x
                     | inr bs => inr (b :: bs)
                     end
          end).
  rewrite (report_ev_line_keys (doc_made_of r) _ _ eq_refl eq_refl), IH.
  reflexivity.
Qed.

Lemma report_lines_retrieved (d : pystr) (t : float) (pred : Prediction)
    (results : list SearchHit) (plan_text : pystr) (a : Alert) :
  exists lines,
    report_lines (mkRun d t pred (doc_made_of <$> results) plan_text a) = inr lines.
Proof.
  unfold report_lines, report_evidence_section. simpl run_evidence.
  destruct results as [|r l]; [eexists; reflexivity|].
  rewrite fmap_cons, <- (fmap_cons doc_made_of), for_each_retrieved.
  eexists. reflexivity.
Qed.

(** A run on an event that has its four required keys, to its end. *)
Lemma run_coordinator_full (d : pystr) (T P C : float)
    (topK : option Z) (thr : option float) (w : world) :
  exists pred,
    p_risk pred = compute_simple_risk T P C /\
    p_failure_modes pred = failure_modes /\
    run_coordinator (mkEvent (Some d) (Some T) (Some P) (Some C) topK thr) w =
    (match (if ge (compute_simple_risk T P C) (default 0.7%float thr)
            then retrieval_outcome P T (default 3 topK) else inr []) with
     | inl x => inl x
     | inr evidence =>
         match report_lines
                 (mkRun d (default 0.7%float thr) pred evidence
                    (plan_repair_workflow d (compute_simple_risk T P C)
                       failure_modes evidence)
                    (send_alert d (compute_simple_risk T P C))) with
         | inl x => inl x
         | inr lines => inr (join nl lines)
         end
     end,
     world_after d T P C topK thr w).
Proof.
  destruct (coordinator_stages_full d T P C topK thr w) as (pred & Hr & Hm & E).
  exists pred. split; [exact Hr|]. split; [exact Hm|].
  unfold run_coordinator, bind. rewrite E.
  rewrite (search_query_text pred P T Hm).
  unfold world_after, retrieval_outcome.
  destruct (ge (compute_simple_risk T P C) (default 0.7%float thr)).
  - rewrite retrieve_docs_cases. cbn [STATE retrievals].
    destruct search_configured; [|reflexivity].
    destruct (search (query_text P T) (default 3 topK)) as [results|];
      [|reflexivity].
    destruct (for_each doc_of_hit results); [reflexivity|].
    match goal with
    | |- context [report_lines ?r] => destruct (report_lines r)
    end; reflexivity.
  - unfold ret. rewrite app_nil_r.
    match goal with
    | |- context [report_lines ?r] => destruct (report_lines r)
    end; reflexivity.
Qed.

(** X13. A run on an event with its four required keys always records
    the reading, whether it ends with a report or with an exception of
    the retrieval; and it logs one retrieval, with the query text made of
    the three failure modes and the two readings and with the event's
    [topK] (3 by default), exactly when the risk reaches the threshold. *)
Theorem run_records_reading (d : pystr) (T P C : float)
    (topK : option Z) (thr : option float) (w : world) :
  let out := run_coordinator (mkEvent (Some d) (Some T) (Some P) (Some C) topK thr) w in
  STATE (snd out) = update_state d T P C (compute_simple_risk T P C) (STATE w) /\
  retrievals (snd out) =
    retrievals w
    ++ (if ge (compute_simple_risk T P C) (default 0.7%float thr)
        then [(str "overheating bearing wear misalignment pump maintenance pressure:"
               ++ float_str P ++ str " temperature:" ++ float_str T,
               default 3 topK)]
        else []).
Proof.
  destruct (run_coordinator_full d T P C topK thr w) as (pred & _ & _ & E).
  cbv zeta. rewrite E. split; reflexivity.
Qed.

(** X14. A run on an event with its four required keys fails only
    through the retrieval: it ends with a report when the risk is below
    the threshold, or the search is configured and answers with records
    that all have text; with the [RuntimeError] of the missing
    configuration when the risk reaches the threshold and the search is
    not configured; with the failure of the search when it is configured
    and fails; with a [TypeError] when the search answers and some
    record has no text (content absent, [None] or empty, and chunk
    [None]). It never raises a [KeyError]: the documents of
    [retrieve_docs] have the keys the report reads. *)
Theorem run_fails_only_through_retrieval (d : pystr) (T P C : float)
    (topK : option Z) (thr : option float) (w : world) :
  let out := run_coordinator (mkEvent (Some d) (Some T) (Some P) (Some C) topK thr) w in
  let high := ge (compute_simple_risk T P C) (default 0.7%float thr) in
  let answer := search (query_text P T) (default 3 topK) in
  ((exists report, fst out = inr report) <->
   high = false \/
   (search_configured = true /\
    exists results, answer = Some results /\ existsb no_text results = false)) /\
  (fst out = inl (RuntimeError (str "Missing AZURE_SEARCH_* in .env (service, key, index)."))
   <-> high = true /\ search_configured = false) /\
  (fst out = inl SearchFailure <->
   high = true /\ search_configured = true /\ answer = None) /\
  (fst out = inl TypeError <->
   high = true /\ search_configured = true /\
   exists results, answer = Some results /\ existsb no_text results = true) /\
  (forall key, fst out <> inl (KeyError key)).
Proof.
  destruct (run_coordinator_full d T P C topK thr w) as (pred & _ & _ & E).
  cbv zeta. rewrite E. unfold retrieval_outcome. cbn [fst].
  destruct (ge (compute_simple_risk T P C) (default 0.7%float thr)).
  - destruct search_configured.
    + destruct (search (query_text P T) (default 3 topK)) as [results|].
      * rewrite for_each_doc_of_hit.
        destruct (existsb no_text results) eqn:N.
        -- split; [|split; [|split; [|split]]].
           ++ split; [intros [r H]; discriminate H|].
              intros [H|(_ & rs & [= <-] & H)]; [discriminate H|congruence].
           ++ split; [discriminate|intros [_ H]; discriminate H].
           ++ split; [discriminate|intros (_ & _ & H); discriminate H].
           ++ split; [intros _|reflexivity].
              split; [reflexivity|]. split; [reflexivity|].
              exists results. split; [reflexivity|exact N].
           ++ discriminate.
        -- destruct (report_lines_retrieved d (default 0.7%float thr) pred results
                       (plan_repair_workflow d (compute_simple_risk T P C)
                          failure_modes (doc_made_of <$> results))
                       (send_alert d (compute_simple_risk T P C))) as [lines Hl].
           rewrite Hl.
           split; [|split; [|split; [|split]]].
           ++ split; [|intros _; eexists; reflexivity].
              intros _. right. split; [reflexivity|].
              exists results. split; [reflexivity|exact N].
           ++ split; [discriminate|intros [_ H]; discriminate H].
           ++ split; [discriminate|intros (_ & _ & H); discriminate H].
           ++ split; [discriminate|].
              intros (_ & _ & rs & [= <-] & H). congruence.
           ++ discriminate.
      * split; [|split; [|split; [|split]]].
        -- split; [intros [r H]; discriminate H|].
           intros [H|(_ & rs & H & _)]; discriminate H.
        -- split; [discriminate|intros [_ H]; discriminate H].
        -- split; [intros _; repeat split|reflexivity].
        -- split; [discriminate|intros (_ & _ & rs & H & _); discriminate H].
        -- discriminate.
    + split; [|split; [|split; [|split]]].
      * split; [intros [r H]; discriminate H|].
        intros [H|[H _]]; discriminate H.
      * split; [intros _; split; reflexivity|reflexivity].
      * split; [discriminate|intros (_ & H & _); discriminate H].
      * split; [discriminate|intros (_ & H & _); discriminate H].
      * discriminate.
  - destruct (report_lines_retrieved d (default 0.7%float thr) pred []
                (plan_repair_workflow d (compute_simple_risk T P C) failure_modes [])
                (send_alert d (compute_simple_risk T P C))) as [lines Hl].
    change (doc_made_of <$> []) with (@nil Doc) in Hl. rewrite Hl.
    split; [|split; [|split; [|split]]].
    + split; [intros _; left; reflexivity|intros _; eexists; reflexivity].
    + split; [discriminate|intros [H _]; discriminate H].
    + split; [discriminate|intros (H & _); discriminate H].
    + split; [discriminate|intros (H & _); discriminate H].
    + discriminate.
Qed.

(** X15. Every run keeps the invariant of the store, whatever the event
    and however the run ends, and changes the record of no device other
    than the event's. *)
Theorem run_keeps_store_invariant (event : Event) (w : world) :
  store_ok (STATE w) ->
  store_ok (STATE (snd (run_coordinator event w))) /\
  (forall d', ev_deviceId event <> Some d' ->
              STATE (snd (run_coordinator event w)) !! d' = STATE w !! d').
Proof.
  intros Hok.
  destruct event as [[d|] [T|] [P|] [C|] topK thr];
    try (split; [exact Hok | intros; reflexivity]).
  destruct (run_coordinator_full d T P C topK thr w) as (pred & _ & _ & E).
  rewrite E. unfold world_after. cbn [snd STATE]. split.
  - intros k r Hk. destruct (decide (k = d)) as [->|Hne].
    + eapply update_state_record_ok, Hk.
    + rewrite update_state_insert, lookup_insert_ne in Hk by congruence.
      eapply Hok, Hk.
  - intros d' Hd. rewrite update_state_insert.
    apply lookup_insert_ne. cbn [ev_deviceId] in Hd. congruence.
Qed.

(** X16. With the alert threshold at its default of 0.7, absent or
    given, the alert of a run agrees with the threshold of the run: it
    is TRIGGERED exactly when the risk reaches the threshold, which is
    exactly when the run retrieved evidence. *)
Theorem default_threshold_alert_matches_retrieval (d : pystr) (T P C : float)
    (topK : option Z) (thr : option float) (w : world) (r : Run) (w' : world) :
  default 0.7%float thr = 0.7%float ->
  coordinator_stages (mkEvent (Some d) (Some T) (Some P) (Some C) topK thr) w
    = (inr r, w') ->
  run_thr r = 0.7%float /\
  (alert (run_alert r) = TRIGGERED <->
   ge (p_risk (run_pred r)) (run_thr r) = true) /\
  (alert (run_alert r) = TRIGGERED <-> retrievals w' <> retrievals w).
Proof.
  intros Hthr.
  destruct (coordinator_stages_full d T P C topK thr w) as (pred & Hr & Hm & E).
  rewrite E, Hthr.
  destruct (ge (compute_simple_risk T P C) 0.7) eqn:G.
  - rewrite retrieve_docs_cases. cbn [STATE retrievals].
    match goal with
    | |- context [if search_configured then ?a else ?b] =>
        destruct (if search_configured then a else b) as [x|ev]
    end; intros [= <- <-]. cbn [run_thr run_alert run_pred retrievals].
    rewrite Hr. unfold send_alert. cbn [alert]. rewrite G.
    split; [reflexivity|]. split; [tauto|].
    split; [|reflexivity]. intros _ H.
    apply (f_equal length) in H. rewrite length_app in H. simpl in H. lia.
  - unfold ret. intros [= <- <-]. cbn [run_thr run_alert run_pred retrievals].
    rewrite Hr. unfold send_alert. cbn [alert]. rewrite G.
    split; [reflexivity|]. split; split; congruence.
Qed.

Lemma pair_inr_inj {A B C} (a b : B) (c d : C) :
  (@inr A B a, c) = (inr b, d) -> a = b /\ c = d.
Proof. intros [= -> ->]. split; reflexivity. Qed.

(** X17. The report of a successful run opens with the title line
    naming the device, and closes with the plan text of the run, word
    for word, under "## Repair Plan", followed by the alert status line,
    which names the alert and the threshold of the event. *)
Theorem report_embeds_plan_and_alert (event : Event) (w : world)
    (r : Run) (w' : world) (report : pystr) (w'' : world) :
  coordinator_stages event w = (inr r, w') ->
  run_coordinator event w = (inr report, w'') ->
  w'' = w' /\
  exists middle,
    report =
      str "# Smart Maintenance Report " ++ [8212%N] ++ str " " ++ run_deviceId r
      ++ nl ++ middle
      ++ nl ++ str "## Repair Plan"
      ++ nl ++ run_plan_text r
      ++ nl ++ str "## Alert Status"
      ++ nl ++ str "- " ++ alert_str (alert (run_alert r))
      ++ str " (threshold: " ++ float_str (run_thr r) ++ str ")".
Proof.
  intros Hs. unfold run_coordinator, bind. rewrite Hs. unfold report_lines.
  destruct (report_evidence_section (run_evidence r)) as [x|ev];
    [intros H; discriminate H|].
  unfold ret. intros H. apply pair_inr_inj in H as [<- <-].
  split; [reflexivity|].
  exists (join nl ([ str "## Risk & Rationale";
                     str "- Risk score: **" ++ float_str (p_risk (run_pred r)) ++ str "**";
                     str "- Rationale: " ++ p_rationale (run_pred r);
                     str "## Failure Modes" ]
                   ++ bulleted (p_failure_modes (run_pred r))
                   ++ [ str "## Evidence (summary)" ] ++ ev)).
  match goal with
  | |- join nl ([?h; ?a; ?b; ?c; ?e] ++ ?fm ++ ?hd ++ ev ++ ?tl) = _ =>
      change ([h; a; b; c; e] ++ fm ++ hd ++ ev ++ tl)
        with ([h] ++ ([a; b; c; e] ++ fm ++ hd ++ ev ++ tl));
      replace ([a; b; c; e] ++ fm ++ hd ++ ev ++ tl)
        with (([a; b; c; e] ++ fm ++ hd ++ ev) ++ tl)
        by (rewrite <- !app_assoc; reflexivity)
  end.
  rewrite !join_app by (intros H; discriminate H).
  cbn [join]. rewrite <- !app_assoc. reflexivity.
Qed.

(** X18. The evidence lines of the report for the documents
    [retrieve_docs] makes of a search answer: the rendering never
    raises, there is one line per record of the answer, however many, or
    the placeholder line for an empty answer, and each line holds the
    title as it prints (nothing for an absent or empty title, "None" for
    a title that is [None]), the first 500 characters of the record's
    text, and the bracketed source if it is a string that is not empty. *)
Theorem report_evidence_of_retrieved (results : list SearchHit) (docs : list Doc) :
  for_each doc_of_hit results = inr docs ->
  exists lines,
    report_evidence_section docs = inr lines /\
    length lines = Nat.max 1 (length results) /\
    (results = [] -> lines = [placeholder]) /\
    (forall i r, results !! i = Some r ->
       lines !! i =
         Some (str "- " ++ fmt (get_default (r_title r)) ++ str ": "
               ++ take 500 (text_of_hit r)
               ++ bracketed (get_or (r_source r) []))).
Proof.
  rewrite for_each_doc_of_hit.
  destruct (existsb no_text results); [discriminate|]. intros [= <-].
  destruct results as [|r0 l].
  - exists [placeholder]. split; [reflexivity|]. split; [reflexivity|].
    split; [reflexivity|]. intros i r H. rewrite lookup_nil in H. discriminate H.
  - exists (full_line <$> (doc_made_of <$> (r0 :: l))).
    split; [|split; [|split]].
    + unfold report_evidence_section. rewrite fmap_cons, <- (fmap_cons doc_made_of).
      apply for_each_retrieved.
    + rewrite !length_fmap. simpl. lia.
    + discriminate.
    + intros i r H. rewrite !list_lookup_fmap, H.
      cbn [fmap option_fmap option_map].
      unfold full_line, doc_made_of. cbn [title snippet source].
      unfold get_or, get_default, get.
      destruct (r_source r) as [[|src]|]; reflexivity.
Qed.

End Agent.

(** ** The scorer on the boundary readings *)

(** [round2] on values whose rounding in CPython is well known: a halfway
    case decided by the binary value (2.675 is stored below 2.675), exact
    ties going to the even digit, and a negative number. *)
Example round2_2_675 : round2 2.675 = 2.67%float.
Proof. vm_compute. reflexivity. Qed.

Example round2_ties_to_even :
  round2 0.125 = 0.12%float /\ round2 0.375 = 0.38%float.
Proof. split; vm_compute; reflexivity. Qed.

Example round2_negative : round2 (-1234567.895) = (-1234567.9)%float.
Proof. vm_compute. reflexivity. Qed.

Example round2_large : round2 1e300 = 1e300%float.
Proof. vm_compute. reflexivity. Qed.

Example strip_both_ends : strip (str "  ab c  ") = str "ab c".
Proof. vm_compute. reflexivity. Qed.

(** C7 (as stated) fails: the readings (92, 8.2, 88) do not score 0.9,
    because 88 is not above the CPU threshold of 90. *)
Lemma score_92_82_88_is_not_09 :
  ~ (compute_simple_risk 85 0 0 = 0%float /\
     compute_simple_risk 85.01 0 0 = 0.4%float /\
     compute_simple_risk 92 8.2 88 = 0.9%float).
Proof.
  intros (_ & _ & H).
  apply (f_equal (fun x => PrimFloat.eqb x 0.9)) in H.
  vm_compute in H. discriminate H.
Qed.

(** C7 (as amended). The comparisons are strict and the weights 0.4, 0.3
    and 0.2 add up: 85 degrees score 0.0 and 85.01 degrees 0.4; the
    readings (92, 8.2, 88) score 0.7, the CPU load of 88 adding nothing;
    with the CPU load above 90, as in (92, 8.2, 91), the three weights
    sum to 0.8999999999999999, which is rounded to 0.9. *)
Theorem score_boundary_cases :
  compute_simple_risk 85 0 0 = 0%float /\
  compute_simple_risk 85.01 0 0 = 0.4%float /\
  compute_simple_risk 92 8.2 88 = 0.7%float /\
  compute_simple_risk 92 8.2 91 = 0.9%float /\
  (0.4 + 0.3 + 0.2)%float = 0.8999999999999999%float /\
  round2 0.8999999999999999 = 0.9%float.
Proof. repeat split; vm_compute; reflexivity. Qed.

(** ** The alert of a run and the event's threshold *)

(** C1. The alert of a run is evaluated against the constant 0.7 and not
    against the event's [alert_threshold]. With the threshold at 0.3, the
    readings (92, 2, 10) score 0.4, which is >= 0.3, yet the alert is
    NO_ALERT and the report ends with "- NO_ALERT (threshold: 0.3)"; with
    the threshold at 0.95, the readings (92, 8.2, 88) score 0.7, which
    is below 0.95, yet the alert is TRIGGERED. *)
Theorem alert_ignores_event_threshold :
  (exists r w' report w'' before,
      coordinator_stages Sample.float_str Sample.float_2f true Sample.search
        Sample.pump17_low_threshold Sample.w0 = (inr r, w') /\
      p_risk (run_pred r) = 0.4%float /\
      run_thr r = 0.3%float /\
      ge (p_risk (run_pred r)) (run_thr r) = true /\
      alert (run_alert r) = NO_ALERT /\
      run_coordinator Sample.float_str Sample.float_2f true Sample.search
        Sample.pump17_low_threshold Sample.w0 = (inr report, w'') /\
      report = before ++ nl ++ str "- NO_ALERT (threshold: 0.3)") /\
  (exists r w',
      coordinator_stages Sample.float_str Sample.float_2f true Sample.search
        Sample.pump17_high_threshold Sample.w0 = (inr r, w') /\
      p_risk (run_pred r) = 0.7%float /\
      run_thr r = 0.95%float /\
      ge (p_risk (run_pred r)) (run_thr r) = false /\
      alert (run_alert r) = TRIGGERED).
Proof.
  split.
  - destruct (coordinator_stages Sample.float_str Sample.float_2f true
                Sample.search Sample.pump17_low_threshold Sample.w0)
      as [[x|r] w'] eqn:E; vm_compute in E; [discriminate E|].
    destruct (run_coordinator Sample.float_str Sample.float_2f true
                Sample.search Sample.pump17_low_threshold Sample.w0)
      as [[x|report] w''] eqn:R; vm_compute in R; [discriminate R|].
    exists r, w', report, w''.
    exists (take (length report - 28) report).
    injection E as <- <-. injection R as <- <-.
    repeat split; vm_compute; reflexivity.
  - destruct (coordinator_stages Sample.float_str Sample.float_2f true
                Sample.search Sample.pump17_high_threshold Sample.w0)
      as [[x|r] w'] eqn:E; vm_compute in E; [discriminate E|].
    exists r, w'. injection E as <- <-.
    repeat split; vm_compute; reflexivity.
Qed.

(** ** The two evidence renderings on concrete runs *)

(** C2. The evidence lines of the report are not those of the plan. In
    the run on the sample event that asks for four documents, the search
    answers with four, the report renders four lines and the plan three.
    For a record with a text of 501 characters the report renders the
    500 that [retrieve_docs] keeps and the plan 300. For a record
    without title the report renders an empty title and the plan
    "Doc 1"; for a title that is [None] the report renders "None". *)
Lemma evidence_renderings_differ :
  (exists r w',
      coordinator_stages Sample.float_str Sample.float_2f true Sample.search
        Sample.pump17_top4 Sample.w0 = (inr r, w') /\
      report_evidence_section (run_evidence r)
        = inr [ str "- Pump manual: Bearing wear limits [manual.pdf]";
                str "- Seal guide: Replace the seal [seals.pdf]";
                str "- Alignment: Check the coupling";
                str "- Cooling: Clear the filters" ] /\
      plan_evidence_section (run_evidence r)
        = [ str "- Pump manual: Bearing wear limits [manual.pdf]";
            str "- Seal guide: Replace the seal [seals.pdf]";
            str "- Alignment: Check the coupling" ] /\
      report_evidence_section (run_evidence r)
        <> inr (plan_evidence_section (run_evidence r))) /\
  (for_each doc_of_hit [Sample.long_hit] = inr [Sample.long_doc] /\
   report_evidence_section [Sample.long_doc]
     = inr [str "- A: " ++ replicate 500 97%N] /\
   plan_evidence_section [Sample.long_doc]
     = [str "- A: " ++ replicate 300 97%N] /\
   report_evidence_section [Sample.long_doc]
     <> inr (plan_evidence_section [Sample.long_doc])) /\
  (for_each doc_of_hit [Sample.untitled_hit] = inr [Sample.untitled_doc] /\
   report_evidence_section [Sample.untitled_doc]
     = inr [str "- : Bearing wear limits [manual.pdf]"] /\
   plan_evidence_section [Sample.untitled_doc]
     = [str "- Doc 1: Bearing wear limits [manual.pdf]"] /\
   report_evidence_section [Sample.untitled_doc]
     <> inr (plan_evidence_section [Sample.untitled_doc])) /\
  (for_each doc_of_hit [Sample.null_title_hit] = inr [Sample.null_title_doc] /\
   report_evidence_section [Sample.null_title_doc]
     = inr [str "- None: Bearing wear limits"] /\
   plan_evidence_section [Sample.null_title_doc]
     = [str "- Doc 1: Bearing wear limits"]).
Proof.
  split; [|split; [|split]].
  - destruct (coordinator_stages Sample.float_str Sample.float_2f true
                Sample.search Sample.pump17_top4 Sample.w0)
      as [[x|r] w'] eqn:E; vm_compute in E; [discriminate E|].
    exists r, w'. injection E as <- <-.
    split; [reflexivity|]. split; [vm_compute; reflexivity|].
    split; [vm_compute; reflexivity|].
    intros H. vm_compute in H. discriminate H.
  - split; [vm_compute; reflexivity|]. split; [vm_compute; reflexivity|].
    split; [vm_compute; reflexivity|].
    intros H. vm_compute in H. discriminate H.
  - split; [vm_compute; reflexivity|]. split; [vm_compute; reflexivity|].
    split; [vm_compute; reflexivity|].
    intros H. vm_compute in H. discriminate H.
  - split; [vm_compute; reflexivity|]. split; vm_compute; reflexivity.
Qed.

(** ** The properties on concrete runs *)

Lemma retrieval_iff_risk_reaches_threshold_witness :
  PrimFloat.ltb (compute_simple_risk 92 8.2 88) 0.95 = true /\
  exists r before after,
    fst (coordinator_stages Sample.float_str Sample.float_2f true Sample.search
           Sample.pump17_high_threshold Sample.w0) = inr r /\
    run_evidence r = [] /\
    run_plan_text r =
      plan_repair_workflow Sample.float_str (str "pump-17")
        (compute_simple_risk 92 8.2 88) failure_modes [] /\
    plan_lines Sample.float_str (str "pump-17") (compute_simple_risk 92 8.2 88)
      failure_modes (run_evidence r) =
      before ++ [str "## Evidence (summary)"; placeholder; str "## Steps"] ++ after /\
    length before = 2%nat.
Proof.
  split; [vm_compute; reflexivity|].
  pose proof (retrieval_iff_risk_reaches_threshold Sample.float_str
                Sample.float_2f true Sample.search (str "pump-17")
                92 8.2 88 (Some 3) (Some 0.95%float) Sample.w0) as H.
  cbv zeta in H. destruct H as (_ & _ & H). apply H.
  vm_compute; reflexivity.
Defined.

Lemma store_invariant_witness :
  store_ok ∅ /\
  store_ok (update_state (str "pump-17") 92 8.2 88 0.7 ∅) /\
  record_ok (deref ∅ (read_last_state (str "pump-17") ∅)).
Proof.
  destruct store_invariant as (H0 & Hu & Hr).
  split; [exact H0|]. split; [apply Hu, H0 | apply Hr, H0].
Defined.

Lemma history_keeps_last_100_witness :
  length Sample.readings = 101%nat /\
  exists r,
    record_all (str "pump-17") Sample.readings ∅ !! str "pump-17" = Some r /\
    length (history r) = 100%nat /\
    history r = drop 1 Sample.readings /\
    (forall i, history r !! i = Sample.readings !! S i).
Proof.
  split; [reflexivity | apply history_keeps_last_100; reflexivity].
Defined.

Lemma eta_by_fixed_threshold_witness :
  exists r w' before,
    coordinator_stages Sample.float_str Sample.float_2f true Sample.search
      Sample.pump17 Sample.w0 = (inr r, w') /\
    run_plan_text r =
      join nl (before
               ++ [ str "## ETA (hours)" ++ nl
                      ++ Sample.float_str (eta (compute_simple_risk 92 8.2 88));
                    str "## Rollback" ++ nl ++ rollback ]).
Proof.
  destruct (coordinator_stages Sample.float_str Sample.float_2f true
              Sample.search Sample.pump17 Sample.w0)
    as [[x|r] w'] eqn:E; [vm_compute in E; discriminate E|].
  destruct (eta_by_fixed_threshold Sample.float_str Sample.float_2f true
              Sample.search) as (_ & _ & H).
  destruct (H _ _ _ _ _ _ _ _ _ E) as [before Hb].
  exists r, w', before. split; [reflexivity | exact Hb].
Defined.

Lemma missing_field_leaves_store_witness :
  (ev_deviceId Sample.no_pressure = None \/
   ev_Temperature Sample.no_pressure = None \/
   ev_Pressure Sample.no_pressure = None \/
   ev_CPU_Usage Sample.no_pressure = None) /\
  exists key,
    In key ["deviceId"; "Temperature"; "Pressure"; "CPU_Usage"]%string /\
    coordinator_stages Sample.float_str Sample.float_2f true Sample.search
      Sample.no_pressure Sample.w0 = (inl (KeyError (str key)), Sample.w0) /\
    run_coordinator Sample.float_str Sample.float_2f true Sample.search
      Sample.no_pressure Sample.w0 = (inl (KeyError (str key)), Sample.w0).
Proof.
  split.
  - right. right. left. reflexivity.
  - apply missing_field_leaves_store. right. right. left. reflexivity.
Defined.

(** ** The further properties on concrete inputs *)

Lemma update_state_other_devices_witness :
  str "pump-2" <> str "pump-17" /\
  update_state (str "pump-17") 92 8.2 88 0.7 Sample.one_device !! str "pump-2"
    = Sample.one_device !! str "pump-2".
Proof.
  assert (H : str "pump-2" <> str "pump-17") by (vm_compute; discriminate).
  split; [exact H | apply update_state_other_devices, H].
Defined.

Lemma record_all_keeps_newest_witness :
  Sample.readings <> [] /\
  exists r,
    record_all (str "pump-17") Sample.readings Sample.one_device !! str "pump-17"
      = Some r /\
    history r =
      last_n 100 (history (default zero_record
                             (Sample.one_device !! str "pump-17"))
                  ++ Sample.readings) /\
    Some (lastRisk r) = hrisk <$> last Sample.readings /\
    (forall d', d' <> str "pump-17" ->
       record_all (str "pump-17") Sample.readings Sample.one_device !! d'
         = Sample.one_device !! d').
Proof.
  assert (H : Sample.readings <> []) by (vm_compute; discriminate).
  split; [exact H | apply record_all_keeps_newest, H].
Defined.

Lemma score_monotone_witness :
  ge 92 80 = true /\ ge 8.2 8.2 = true /\ ge 95 88 = true /\
  ge (compute_simple_risk 92 8.2 95) (compute_simple_risk 80 8.2 88) = true.
Proof.
  split; [reflexivity|]. split; [reflexivity|]. split; [reflexivity|].
  apply score_monotone; reflexivity.
Defined.

Lemma nan_reading_adds_nothing_witness :
  PrimFloat.is_nan PrimFloat.nan = true /\
  compute_simple_risk PrimFloat.nan 8.2 95 = compute_simple_risk 0 8.2 95 /\
  compute_simple_risk 92 PrimFloat.nan 95 = compute_simple_risk 92 0 95 /\
  compute_simple_risk 92 8.2 PrimFloat.nan = compute_simple_risk 92 8.2 0.
Proof.
  split; [reflexivity | apply nan_reading_adds_nothing; reflexivity].
Defined.

Lemma retrieve_docs_documents_witness :
  true = true /\
  Sample.search_null_text (str "pump") 3
    = Some (take 1 Sample.index ++ [Sample.null_text_hit]) /\
  exists outcome,
    retrieve_docs true Sample.search_null_text (str "pump") 3 Sample.w0
      = (outcome, mkWorld (STATE Sample.w0)
                          (retrievals Sample.w0 ++ [(str "pump", 3)])) /\
    (outcome = inl TypeError <->
     existsb no_text (take 1 Sample.index ++ [Sample.null_text_hit]) = true) /\
    ((exists docs, outcome = inr docs) <->
     existsb no_text (take 1 Sample.index ++ [Sample.null_text_hit]) = false) /\
    (forall docs, outcome = inr docs ->
       length docs = length (take 1 Sample.index ++ [Sample.null_text_hit]) /\
       forall i r, (take 1 Sample.index ++ [Sample.null_text_hit]) !! i = Some r ->
         exists snip,
           docs !! i = Some (mkDoc (Some (get_default (r_title r)))
                                   (Some (Str snip))
                                   (Some (get_default (r_source r)))
                                   (Some (default 0%float (r_score r)))) /\
           (length snip <= 500)%nat /\
           snip = take 500 (text_of_hit r)).
Proof.
  split; [reflexivity|]. split; [reflexivity|].
  apply retrieve_docs_documents; reflexivity.
Defined.

Lemma report_evidence_of_retrieved_witness :
  for_each doc_of_hit [Sample.null_title_hit; Sample.long_hit]
    = inr [Sample.null_title_doc; Sample.long_doc] /\
  exists lines,
    report_evidence_section [Sample.null_title_doc; Sample.long_doc] = inr lines /\
    length lines = Nat.max 1 (length [Sample.null_title_hit; Sample.long_hit]) /\
    ([Sample.null_title_hit; Sample.long_hit] = [] -> lines = [placeholder]) /\
    (forall i r, [Sample.null_title_hit; Sample.long_hit] !! i = Some r ->
       lines !! i =
         Some (str "- " ++ fmt (get_default (r_title r)) ++ str ": "
               ++ take 500 (text_of_hit r)
               ++ bracketed (get_or (r_source r) []))).
Proof.
  assert (H : for_each doc_of_hit [Sample.null_title_hit; Sample.long_hit]
              = inr [Sample.null_title_doc; Sample.long_doc])
    by (vm_compute; reflexivity).
  split; [exact H | apply (report_evidence_of_retrieved _ _ H)].
Defined.

Lemma run_keeps_store_invariant_witness :
  store_ok (STATE Sample.w0) /\
  store_ok (STATE (snd (run_coordinator Sample.float_str Sample.float_2f true
                          Sample.search Sample.pump17 Sample.w0))) /\
  (forall d', ev_deviceId Sample.pump17 <> Some d' ->
     STATE (snd (run_coordinator Sample.float_str Sample.float_2f true
                   Sample.search Sample.pump17 Sample.w0)) !! d'
       = STATE Sample.w0 !! d').
Proof.
  assert (H : store_ok (STATE Sample.w0)).
  { intros d r Hd. unfold Sample.w0 in Hd. cbn [STATE] in Hd.
    rewrite lookup_empty in Hd. discriminate Hd. }
  split; [exact H | apply run_keeps_store_invariant, H].
Defined.

Lemma default_threshold_alert_matches_retrieval_witness :
  exists r w',
    default 0.7%float None = 0.7%float /\
    coordinator_stages Sample.float_str Sample.float_2f true Sample.search
      Sample.pump17_defaults Sample.w0 = (inr r, w') /\
    run_thr r = 0.7%float /\
    (alert (run_alert r) = TRIGGERED <->
     ge (p_risk (run_pred r)) (run_thr r) = true) /\
    (alert (run_alert r) = TRIGGERED <-> retrievals w' <> retrievals Sample.w0).
Proof.
  destruct (coordinator_stages Sample.float_str Sample.float_2f true
              Sample.search Sample.pump17_defaults Sample.w0)
    as [[x|r] w'] eqn:E; [vm_compute in E; discriminate E|].
  exists r, w'. split; [reflexivity|]. split; [reflexivity|].
  exact (default_threshold_alert_matches_retrieval Sample.float_str
           Sample.float_2f true Sample.search _ _ _ _ _ None _ _ _ eq_refl E).
Defined.

Lemma report_embeds_plan_and_alert_witness :
  exists r w' report w'',
    coordinator_stages Sample.float_str Sample.float_2f true Sample.search
      Sample.pump17 Sample.w0 = (inr r, w') /\
    run_coordinator Sample.float_str Sample.float_2f true Sample.search
      Sample.pump17 Sample.w0 = (inr report, w'') /\
    w'' = w' /\
    exists middle,
      report =
        str "# Smart Maintenance Report " ++ [8212%N] ++ str " " ++ run_deviceId r
        ++ nl ++ middle
        ++ nl ++ str "## Repair Plan"
        ++ nl ++ run_plan_text r
        ++ nl ++ str "## Alert Status"
        ++ nl ++ str "- " ++ alert_str (alert (run_alert r))
        ++ str " (threshold: " ++ Sample.float_str (run_thr r) ++ str ")".
Proof.
  destruct (coordinator_stages Sample.float_str Sample.float_2f true
              Sample.search Sample.pump17 Sample.w0)
    as [[x|r] w'] eqn:E; [vm_compute in E; discriminate E|].
  destruct (run_coordinator Sample.float_str Sample.float_2f true
              Sample.search Sample.pump17 Sample.w0)
    as [[x|report] w''] eqn:R; [vm_compute in R; discriminate R|].
  exists r, w', report, w''. split; [reflexivity|]. split; [reflexivity|].
  exact (report_embeds_plan_and_alert Sample.float_str Sample.float_2f true
           Sample.search _ _ _ _ _ _ E R).
Defined.


Example sample_float_formatting :
  Sample.float_str 92 = str "92.0" /\ Sample.float_str 8.2 = str "8.2" /\
  Sample.float_str 10 = str "10.0" /\ Sample.float_str 0.95 = str "0.95" /\
  Sample.float_str 0.3 = str "0.3" /\ Sample.float_str 3.5 = str "3.5" /\
  Sample.float_str 2 = str "2.0" /\ Sample.float_str 0 = str "0.0" /\
  Sample.float_str (-1.25) = str "-1.25" /\
  Sample.float_2f 0.7 = str "0.70" /\ Sample.float_2f 0.4 = str "0.40" /\
  Sample.float_2f 2.675 = str "2.67" /\ Sample.float_2f 0 = str "0.00".
Proof. repeat split; vm_compute; reflexivity. Qed.

(** A run whose search answers with a record that has [None] as content
    and as chunk: the slice in [retrieve_docs] raises a [TypeError], no
    report is made, and the reading has been recorded all the same. *)
Example run_with_record_without_text :
  exists w',
    run_coordinator Sample.float_str Sample.float_2f true Sample.search_null_text
      Sample.pump17 Sample.w0 = (inl TypeError, w') /\
    STATE w' = update_state (str "pump-17") 92 8.2 88 0.7 ∅ /\
    retrievals w' =
      [(str "overheating bearing wear misalignment pump maintenance pressure:8.2 temperature:92.0",
        3)].
Proof.
  destruct (run_coordinator Sample.float_str Sample.float_2f true
              Sample.search_null_text Sample.pump17 Sample.w0)
    as [[x|report] w'] eqn:E; vm_compute in E; [|discriminate E].
  exists w'. injection E as <- <-. repeat split; vm_compute; reflexivity.
Qed.

